(** * FPL electric bills dashboard: the loading and aggregation pipeline

    A shallow embedding of [fpl_streamlit_app.py]: the loader
    [load_fpl_data] (fetch, read, convert, derive, all under one
    [try]/[except Exception]) and the script-level computations that follow
    it (year list, year filter, per-year totals, annual summary).

    The program is written against pandas.  What pandas and Python do is
    modelled as far as the program depends on it:
    - a float64 is modelled as an extended rational: finite values are exact
      rationals, and division by zero, infinities and NaN follow IEEE 754.
      Rounding and the sign of zero are not modelled.  An entry of an
      int64 column is the whole number it holds, and the sum of such a
      column is taken in int64, where an overflow wraps round;
    - the lexers of the library ([pd.read_csv], the date parser behind
      [pd.to_datetime]) and the month names of the process locale (what
      [strftime('%B')] prints) are parameters of the development. *)

From Stdlib Require Import ZArith QArith Qcanon Qround String Ascii List Bool.
From Stdlib Require Import Lia.
From Stdlib Require Import Permutation Sorted.
Import ListNotations.

Set Implicit Arguments.

(** ** float64 values *)

Module F64.

Inductive f64 : Type :=
| Fin (q : Qc)
| PInf
| NInf
| NaN.

Definition of_Z (z : Z) : f64 := Fin (Q2Qc (inject_Z z)).
Definition of_nat (n : nat) : f64 := of_Z (Z.of_nat n).
(** [dec n k] is the decimal literal with digits [n] and [k] fractional
    digits: [dec 7500 2] is 75.00. *)
Definition dec (n : Z) (k : nat) : f64 :=
  Fin (Q2Qc (Qmake n (Z.to_pos (10 ^ Z.of_nat k)))).

Definition zero : f64 := Fin 0%Qc.

Definition isnan (x : f64) : bool :=
  match x with NaN => true | _ => false end.
Definition notna (x : f64) : bool := negb (isnan x).
Definition isinf (x : f64) : bool :=
  match x with PInf | NInf => true | _ => false end.
Definition isfinite (x : f64) : bool :=
  match x with Fin _ => true | _ => false end.

(** IEEE 754 addition. *)
Definition fadd (a b : f64) : f64 :=
  match a, b with
  | NaN, _ | _, NaN => NaN
  | PInf, NInf | NInf, PInf => NaN
  | PInf, _ | _, PInf => PInf
  | NInf, _ | _, NInf => NInf
  | Fin x, Fin y => Fin (x + y)%Qc
  end.

(** IEEE 754 division: a finite non-zero value over zero is an infinity,
    zero over zero is NaN; nothing raises. *)
Definition fdiv (a b : f64) : f64 :=
  match a, b with
  | NaN, _ | _, NaN => NaN
  | Fin x, Fin y =>
      match (y ?= 0)%Qc with
      | Eq => match (x ?= 0)%Qc with
              | Eq => NaN
              | Gt => PInf
              | Lt => NInf
              end
      | _ => Fin (x / y)%Qc
      end
  | Fin _, _ => zero
  | PInf, Fin y => match (y ?= 0)%Qc with Lt => NInf | _ => PInf end
  | NInf, Fin y => match (y ?= 0)%Qc with Lt => PInf | _ => NInf end
  | _, _ => NaN
  end.

(** Equality test on the underlying fractions (both are in lowest terms). *)
Definition eqb (a b : f64) : bool :=
  match a, b with
  | Fin x, Fin y => Qeq_bool x y
  | PInf, PInf | NInf, NInf | NaN, NaN => true
  | _, _ => false
  end.

(** [Series.sum()] on a float64 column with the default [skipna=True]:
    NaN entries are filled with 0 and the rest is added up; the sum of
    nothing is 0.  The additions are exact here and rounded in the
    program. *)
Definition fillna0 (x : f64) : f64 := if isnan x then zero else x.
Definition nansum (l : list f64) : f64 :=
  fold_left fadd (map fillna0 l) zero.

(** [Series.mean()] with the default [skipna=True]: the sum as above over
    the number of entries that are not NaN, and NaN when there is none. *)
Definition count (l : list f64) : nat := length (filter notna l).
Definition nanmean (l : list f64) : f64 :=
  match count l with
  | O => NaN
  | S _ as n => fdiv (nansum l) (of_nat n)
  end.

(** The plain sum of a list, from the right. *)
Definition fsum (l : list f64) : f64 := fold_right fadd zero l.

(** The exact sum of a list of rationals. *)
Definition Qcsum (qs : list Qc) : Qc := fold_right Qcplus 0%Qc qs.

End F64.
Import F64.

(** ** int64 columns *)

(** The dtype of a numeric column.  Every entry of a column has it: an
    entry of an [int64] column is a [numpy.int64], one of a [float64]
    column a [numpy.float64]. *)
Inductive dtype : Type :=
| int64
| float64.

Definition is_int64 (d : dtype) : bool :=
  match d with int64 => true | float64 => false end.

(** The dtype of a column from the dtypes of its entries.  A column with
    no entry sums to 0 under either. *)
Definition column_dtype (entries : list dtype) : dtype :=
  if forallb is_int64 entries then int64 else float64.

(** The whole number an entry of an int64 column holds. *)
Definition int_value (x : f64) : Z :=
  match x with
  | Fin q => Qfloor q
  | _ => 0%Z
  end.

(** int64 arithmetic: the sum modulo 2^64, taken in [-2^63, 2^63). *)
Definition wrap_int64 (z : Z) : Z :=
  ((z + 2 ^ 63) mod 2 ^ 64 - 2 ^ 63)%Z.

Definition add_int64 (a b : Z) : Z := wrap_int64 (a + b).

(** [Series.sum()] on an int64 column: the entries added up in int64, an
    overflow wrapping round.  An int64 column has no NaN to skip. *)
Definition sum_int64 (l : list f64) : f64 :=
  of_Z (fold_left add_int64 (map int_value l) 0%Z).

(** [Series.sum()] on a column of the given dtype. *)
Definition Series_sum (d : dtype) (l : list f64) : f64 :=
  match d with
  | int64 => sum_int64 l
  | float64 => nansum l
  end.

(** ** Timestamps and month names *)

(** The entries of a [datetime64] column.  A timestamp is modelled by its
    calendar fields and the time of day; pandas stores the count of
    nanoseconds since 1970 and compares by it, which is the lexicographic
    order on these fields.  A missing entry (NaT) is [None]. *)
Inductive month : Type :=
| Jan | Feb | Mar | Apr | May | Jun | Jul | Aug | Sep | Oct | Nov | Dec.

Definition month_number (m : month) : Z :=
  match m with
  | Jan => 1 | Feb => 2 | Mar => 3 | Apr => 4 | May => 5 | Jun => 6
  | Jul => 7 | Aug => 8 | Sep => 9 | Oct => 10 | Nov => 11 | Dec => 12
  end.

Record Timestamp : Type := mkTimestamp {
  ts_year : Z;
  ts_month : month;
  ts_day : Z;
  ts_nanos : Z   (* time of day *)
}.

Definition ts_key (t : Timestamp) : list Z :=
  [ts_year t; month_number (ts_month t); ts_day t; ts_nanos t].

Fixpoint lex_leb (a b : list Z) : bool :=
  match a, b with
  | [], _ => true
  | _ :: _, [] => false
  | x :: a', y :: b' =>
      if (x <? y)%Z then true
      else if (y <? x)%Z then false
      else lex_leb a' b'
  end.

Definition ts_leb (a b : Timestamp) : bool := lex_leb (ts_key a) (ts_key b).

(** The order [sort_values] uses on a datetime column: ascending, NaT last
    ([na_position='last']). *)
Definition date_leb (a b : option Timestamp) : bool :=
  match a, b with
  | _, None => true
  | None, Some _ => false
  | Some x, Some y => ts_leb x y
  end.

(** The month list the charts pass as [categoryarray] (lines 102-105,
    124-127 and 143-146 of the source, three times the same literal). *)
Definition categoryarray : list string :=
  ["January"; "February"; "March"; "April"; "May"; "June";
   "July"; "August"; "September"; "October"; "November"; "December"]%string.

(** What [strftime('%B')] prints in the C locale, the locale a Python
    process has for LC_TIME unless [locale.setlocale] is called. *)
Definition C_locale (m : month) : string :=
  match m with
  | Jan => "January" | Feb => "February" | Mar => "March" | Apr => "April"
  | May => "May" | Jun => "June" | Jul => "July" | Aug => "August"
  | Sep => "September" | Oct => "October" | Nov => "November"
  | Dec => "December"
  end%string.

(** ** The table as [pd.read_csv] hands it over *)

(** A field of the file after pandas' lexing: an integer literal that
    fits int64, any other number, a missing value (an empty field or one
    of the NA markers, read as NaN), or any other text.  A column of
    integer literals only has dtype [int64]; a column with a [CText]
    entry has dtype [object]; any other column is [float64]. *)
Inductive cell : Type :=
| CInt (z : Z)
| CNum (x : f64)
| CNA
| CText (s : string).

Record RawFrame : Type := mkRawFrame {
  columns : list string;
  rows : list (list cell)
}.

(** ** Exceptions and the error monad *)

Inductive exn : Type :=
| RequestException                (* requests.get: no response *)
| HTTPError (status_code : Z)     (* response.raise_for_status() *)
| ParserError                     (* pd.read_csv: nothing to parse, bad line *)
| KeyError (key : string)         (* df[key]: no such column *)
| DateParseError (raw : cell)     (* pd.to_datetime: entry not a date *)
| TypeError.                      (* Total / kWh: an operand is text *)

Inductive result (A : Type) : Type :=
| Ok (a : A)
| Raise (e : exn).
Arguments Ok {A} a.
Arguments Raise {A} e.

Definition bind {A B : Type} (m : result A) (k : A -> result B) : result B :=
  match m with
  | Ok a => k a
  | Raise e => Raise e
  end.

Notation "x <- m ;; k" := (bind m (fun x => k))
  (at level 61, m at next level, right associativity).

Fixpoint mapM {A B : Type} (f : A -> result B) (l : list A) : result (list B) :=
  match l with
  | [] => Ok []
  | a :: t => b <- f a ;; bs <- mapM f t ;; Ok (b :: bs)
  end.

Record Response : Type := mkResponse {
  status_code : Z;
  text : string
}.

(** ** The derived table *)

(** One row of the frame [load_fpl_data] returns, restricted to the columns
    the program reads or writes.  [None] in [Year], [Month] and [Month_Name]
    is the NaN pandas puts there for a NaT date.  [kWh] and [Total] hold
    the value of the entry, [kWh_dtype] and [Total_dtype] the dtype of the
    column it is an entry of, the same in every row of a frame. *)
Record Row : Type := mkRow {
  Date : option Timestamp;
  kWh : f64;
  Total : f64;
  Unit_Cost : f64;
  Year : option Z;
  Month : option Z;
  Month_Name : option string;
  kWh_dtype : dtype;
  Total_dtype : dtype
}.

Definition DataFrame : Type := list Row.

(** What the user interface is told: [st.error(f"Error loading data: {e}")]. *)
Inductive ui_event : Type :=
| st_error (e : exn).

(** ** [load_fpl_data] *)

Fixpoint index_of (name : string) (l : list string) : option nat :=
  match l with
  | [] => None
  | c :: t => if String.eqb name c then Some O
              else option_map S (index_of name t)
  end.

(** [df[key]]: the column of that name, a [KeyError] when there is none. A
    row shorter than the header is padded with NaN. *)
Definition getitem (df : RawFrame) (key : string) : result (list cell) :=
  match index_of key (columns df) with
  | Some i => Ok (map (fun r => nth i r CNA) (rows df))
  | None => Raise (KeyError key)
  end.

(** The dtype [pd.read_csv] gives a numeric column: int64 when every
    field is an integer literal, float64 otherwise. *)
Definition is_int (c : cell) : bool :=
  match c with CInt _ => true | _ => false end.

Definition infer_dtype (col : list cell) : dtype :=
  if forallb is_int col then int64 else float64.

Definition is_text (c : cell) : bool :=
  match c with CText _ => true | _ => false end.

(** The value of an entry of a numeric column, as a float64. *)
Definition to_float (c : cell) : f64 :=
  match c with
  | CInt z => of_Z z
  | CNum x => x
  | _ => NaN
  end.

(** [a / b] on two columns.  On two numeric columns it is float division,
    entry by entry, a missing entry being NaN; int64 entries are divided
    as floats.  A column with text in it holds strings, and dividing by
    or into it raises [TypeError]. *)
Definition truediv (a b : list cell) : result (list f64) :=
  if existsb is_text a || existsb is_text b
  then Raise TypeError
  else Ok (map (fun p => fdiv (to_float (fst p)) (to_float (snd p)))
               (combine a b)).

(** [response.raise_for_status()]. *)
Definition raise_for_status (r : Response) : result unit :=
  if ((400 <=? status_code r) && (status_code r <? 600))%Z
  then Raise (HTTPError (status_code r))
  else Ok tt.

Definition dt_year (d : option Timestamp) : option Z :=
  option_map ts_year d.
Definition dt_month (d : option Timestamp) : option Z :=
  option_map (fun t => month_number (ts_month t)) d.

Section Loader.

(** The library and the process environment. *)
Variable read_csv : string -> result RawFrame.
Variable parse_datetime : cell -> option Timestamp.
Variable lc_time : month -> string.

(** [pd.to_datetime] on one entry: a missing value becomes NaT, anything
    else is parsed and raises when it is not a date. *)
Definition to_datetime (c : cell) : result (option Timestamp) :=
  match c with
  | CNA => Ok None
  | _ => match parse_datetime c with
         | Some t => Ok (Some t)
         | None => Raise (DateParseError c)
         end
  end.

(** [.dt.strftime('%B')]. *)
Definition dt_strftime_B (d : option Timestamp) : option string :=
  option_map (fun t => lc_time (ts_month t)) d.

Definition derive (d : option Timestamp) (total kwh unit_cost : f64)
           (total_dtype kwh_dtype : dtype) : Row :=
  {| Date := d;
     kWh := kwh;
     Total := total;
     Unit_Cost := unit_cost;
     Year := dt_year d;
     Month := dt_month d;
     Month_Name := dt_strftime_B d;
     kWh_dtype := kwh_dtype;
     Total_dtype := total_dtype |}.

Fixpoint assemble (total_dtype kwh_dtype : dtype)
         (ds : list (option Timestamp)) (totals kwhs ucs : list f64)
  : DataFrame :=
  match ds, totals, kwhs, ucs with
  | d :: ds', t :: ts', k :: ks', u :: us' =>
      derive d t k u total_dtype kwh_dtype
      :: assemble total_dtype kwh_dtype ds' ts' ks' us'
  | _, _, _, _ => []
  end.

(** The body of the [try] block, lines 26-44. *)
Definition load_fpl_data_try (get : result Response) : result DataFrame :=
  response <- get ;;
  _ <- raise_for_status response ;;
  df <- read_csv (text response) ;;
  date <- getitem df "Date" ;;
  date <- mapM to_datetime date ;;
  total <- getitem df "Total" ;;
  kwh <- getitem df "kWh" ;;
  unit_cost <- truediv total kwh ;;
  Ok (assemble (infer_dtype total) (infer_dtype kwh)
               date (map to_float total) (map to_float kwh) unit_cost).

(** [load_fpl_data], lines 23-48: the value returned and what is sent to
    the page.  [get] is the outcome of [requests.get(url)]. *)
Definition load_fpl_data (get : result Response)
  : option DataFrame * list ui_event :=
  match load_fpl_data_try get with
  | Ok df => (Some df, [])
  | Raise e => (None, [st_error e])
  end.

End Loader.

(** ** Python's [sorted] *)

(** [list.sort] as CPython's listsort runs it on a list shorter than 64
    entries: the leading run is found ([count_run]; a strictly descending
    run is reversed), then every further entry is put into place by a
    binary search ([binarysort]).  Only [<] is ever asked.  On entries
    that [<] orders totally the result is the ascending arrangement,
    whatever the length and the release of CPython; with a NaN among them,
    which is neither below nor above anything, it is what these steps
    leave (releases from 3.13 on find the leading run in another way and
    may leave another arrangement). *)
Module PySort.
Section Sorted.

Variable A : Type.
Variable lt : A -> A -> bool.

(** The rest of the run after [prev]: entries are taken while each is
    below its predecessor (descending run) or not below it (ascending). *)
Fixpoint take_run (descending : bool) (prev : A) (l : list A)
  : list A * list A :=
  match l with
  | [] => ([], [])
  | x :: t =>
      if Bool.eqb (lt x prev) descending
      then let '(run, rest) := take_run descending x t in (x :: run, rest)
      else ([], l)
  end.

Definition count_run (l : list A) : list A * list A :=
  match l with
  | a :: b :: t =>
      let descending := lt b a in
      let '(run, rest) := take_run descending b t in
      let run := a :: b :: run in
      (if descending then rev run else run, rest)
  | _ => (l, [])
  end.

(** The binary search of [binarysort]: with [l < r],
    [p = l + ((r - l) >> 1)]; [r = p] when [pivot < a[p]], else
    [l = p + 1]; until [l = r]. *)
Fixpoint bisect (fuel : nat) (a : list A) (pivot : A) (l r : nat) : nat :=
  match fuel with
  | O => l
  | S fuel' =>
      if (l <? r)%nat then
        let p := (l + Nat.div2 (r - l))%nat in
        match nth_error a p with
        | Some ap =>
            if lt pivot ap then bisect fuel' a pivot l p
            else bisect fuel' a pivot (S p) r
        | None => l
        end
      else l
  end.

Definition binary_insert (a : list A) (pivot : A) : list A :=
  let k := bisect (S (length a)) a pivot 0 (length a) in
  firstn k a ++ pivot :: skipn k a.

Definition sorted (l : list A) : list A :=
  let '(run, rest) := count_run l in
  fold_left binary_insert rest run.

End Sorted.
End PySort.

(** ** The script after the load (lines 54-202) *)

(** Insertion sort by a comparison; the order [sort_values] and [groupby]
    put their rows and keys in.  pandas does not promise an order among
    rows with the same key (the default sort is not stable); here they keep
    the order they came in. *)
Section InsertionSort.

Variable A : Type.
Variable leb : A -> A -> bool.

Fixpoint insert (x : A) (l : list A) : list A :=
  match l with
  | [] => [x]
  | y :: t => if leb x y then x :: l else y :: insert x t
  end.

Fixpoint isort (l : list A) : list A :=
  match l with
  | [] => []
  | x :: t => insert x (isort t)
  end.

End InsertionSort.

(** Equality and order of two entries of the [Year] column, as Python
    compares floats: NaN equals nothing and is below nothing. *)
Definition year_eq (a b : option Z) : bool :=
  match a, b with
  | Some x, Some y => (x =? y)%Z
  | _, _ => false
  end.

Definition year_lt (a b : option Z) : bool :=
  match a, b with
  | Some x, Some y => (x <? y)%Z
  | _, _ => false
  end.

(** Membership as [Series.unique()] decides it: NaN counts as one value. *)
Definition same_year (a b : option Z) : bool :=
  match a, b with
  | Some x, Some y => (x =? y)%Z
  | None, None => true
  | _, _ => false
  end.

(** [Series.unique()]: the values in order of first appearance. *)
Fixpoint unique_from (seen : list (option Z)) (l : list (option Z))
  : list (option Z) :=
  match l with
  | [] => []
  | y :: t =>
      if existsb (same_year y) seen then unique_from seen t
      else y :: unique_from (y :: seen) t
  end.

Definition unique (l : list (option Z)) : list (option Z) := unique_from [] l.

(** Line 58: [sorted(df['Year'].unique())]. *)
Definition available_years (df : DataFrame) : list (option Z) :=
  PySort.sorted year_lt (unique (map Year df)).

(** [df.sort_values('Date')]. *)
Definition sort_values_Date (df : DataFrame) : DataFrame :=
  isort (fun a b => date_leb (Date a) (Date b)) df.

(** Lines 66-67: [df[df['Year'] == selected_year].copy()], then sorted by
    date. *)
Definition year_df (df : DataFrame) (selected_year : option Z) : DataFrame :=
  sort_values_Date (filter (fun r => year_eq (Year r) selected_year) df).

(** Lines 71-74. *)
Definition total_kwh (year_df : DataFrame) : f64 :=
  Series_sum (column_dtype (map kWh_dtype year_df)) (map kWh year_df).
Definition total_cost (year_df : DataFrame) : f64 :=
  Series_sum (column_dtype (map Total_dtype year_df)) (map Total year_df).
Definition avg_unit_cost (year_df : DataFrame) : f64 :=
  nanmean (map Unit_Cost year_df).
Definition num_bills (year_df : DataFrame) : nat := length year_df.

(** One row of [annual_summary]; the columns keep the names of the columns
    they aggregate. *)
Record SummaryRow : Type := mkSummaryRow {
  s_Year : Z;
  s_kWh : f64;
  s_Total : f64;
  s_Unit_Cost : f64
}.

(** The keys of [df.groupby('Year')]: the years that are not NaN, each once,
    ascending. *)
Fixpoint dedup (l : list Z) : list Z :=
  match l with
  | [] => []
  | y :: t => y :: filter (fun z => negb (z =? y)%Z) (dedup t)
  end.

Fixpoint dropna_years (l : list (option Z)) : list Z :=
  match l with
  | [] => []
  | Some y :: t => y :: dropna_years t
  | None :: t => dropna_years t
  end.

Definition group_keys (df : DataFrame) : list Z :=
  isort Z.leb (dedup (dropna_years (map Year df))).

Definition group (df : DataFrame) (y : Z) : DataFrame :=
  filter (fun r => year_eq (Year r) (Some y)) df.

(** Lines 165-169: [df.groupby('Year').agg({'kWh': 'sum', 'Total': 'sum',
    'Unit_Cost': 'mean'}).reset_index()]. *)
Definition annual_summary (df : DataFrame) : list SummaryRow :=
  map (fun y =>
         let g := group df y in
         {| s_Year := y;
            s_kWh := Series_sum (column_dtype (map kWh_dtype g)) (map kWh g);
            s_Total :=
              Series_sum (column_dtype (map Total_dtype g)) (map Total g);
            s_Unit_Cost := nanmean (map Unit_Cost g) |})
      (group_keys df).

(** The year-over-year section of the page: inside [if len(year_df) > 0]
    (line 82) and [if len(available_years) > 1] (line 161); [None] when the
    table is not computed. *)
Definition year_over_year (df : DataFrame) (selected_year : option Z)
  : option (list SummaryRow) :=
  if (0 <? length (year_df df selected_year))%nat then
    if (1 <? length (available_years df))%nat then Some (annual_summary df)
    else None
  else None.

(** Lines 59-63: the entry the select box holds until the user picks
    another, [available_years[len(available_years) - 1]].  With nothing
    on offer the widget returns Python's [None], which equals no entry of
    the [Year] column, as NaN does; both read as [None] here. *)
Definition default_selected_year (available_years : list (option Z))
  : option Z :=
  let index := (Z.of_nat (length available_years) - 1)%Z in
  if (0 <=? index)%Z then
    match nth_error available_years (Z.to_nat index) with
    | Some year => year
    | None => None
    end
  else None.

(** What the main area of the page shows: the failure message of line
    205, the warning of line 202, or the charts and the table of lines
    84-158 for the rows of the year, with the year-over-year section of
    lines 161-199 when it is made. *)
Inductive view : Type :=
| Failed
| NoData (selected_year : option Z)
| Dashboard (year_df : DataFrame) (annual_summary : option (list SummaryRow)).

(** Lines 54-205: the branches of the script on the frame loaded and the
    year selected. *)
Definition page (df : option DataFrame) (selected_year : option Z) : view :=
  match df with
  | None => Failed
  | Some df =>
      let rows_of_year := year_df df selected_year in
      if (0 <? length rows_of_year)%nat then
        Dashboard rows_of_year
                  (if (1 <? length (available_years df))%nat
                   then Some (annual_summary df)
                   else None)
      else NoData selected_year
  end.

(** ** A small reader and date parser *)

(** An instance of the library parameters, used to run the model on
    literal input: comma-separated fields, one record per line, decimal
    numbers with an optional sign and fraction, dates as YYYY-MM-DD.  It
    reads such files the way pandas does, and is far from all pandas
    accepts. *)
Module Plain.

Definition LF : ascii := ascii_of_nat 10.

Fixpoint split (sep : ascii) (s : string) : list string :=
  match s with
  | EmptyString => [EmptyString]
  | String c t =>
      if Ascii.eqb c sep then EmptyString :: split sep t
      else match split sep t with
           | h :: r => String c h :: r
           | [] => [String c EmptyString]
           end
  end.

(** The text of a file from its lines. *)
Fixpoint unlines (l : list string) : string :=
  match l with
  | [] => EmptyString
  | s :: t => (s ++ String LF (unlines t))%string
  end.

Definition digit (c : ascii) : option Z :=
  let n := nat_of_ascii c in
  if ((48 <=? n) && (n <=? 57))%nat then Some (Z.of_nat (n - 48)) else None.

(** The value of a string of digits after [acc]; [None] on any other
    character. *)
Fixpoint digits (acc : Z) (s : string) : option Z :=
  match s with
  | EmptyString => Some acc
  | String c t =>
      match digit c with
      | Some d => digits (10 * acc + d) t
      | None => None
      end
  end.

Definition nonempty (s : string) : bool :=
  match s with EmptyString => false | _ => true end.

Definition unsigned_decimal (s : string) : option (Z * nat) :=
  match split "." s with
  | [i] => if nonempty i then option_map (fun n => (n, O)) (digits 0 i)
           else None
  | [i; f] =>
      if nonempty i && nonempty f
      then option_map (fun n => (n, String.length f)) (digits 0 (i ++ f))
      else None
  | _ => None
  end.

Definition decimal (s : string) : option f64 :=
  match s with
  | String "-" t =>
      option_map (fun p => dec (- fst p) (snd p)) (unsigned_decimal t)
  | String "+" t =>
      option_map (fun p => dec (fst p) (snd p)) (unsigned_decimal t)
  | _ => option_map (fun p => dec (fst p) (snd p)) (unsigned_decimal s)
  end.

Definition na_values : list string :=
  [""; "NA"; "N/A"; "NaN"; "nan"; "NULL"; "null"; "None"; "#N/A"]%string.

(** An integer literal: an optional sign and digits. *)
Definition integer (s : string) : option Z :=
  match s with
  | String "-" t => if nonempty t then option_map Z.opp (digits 0 t) else None
  | String "+" t => if nonempty t then digits 0 t else None
  | _ => if nonempty s then digits 0 s else None
  end.

Definition fits_int64 (z : Z) : bool :=
  ((- 2 ^ 63 <=? z) && (z <? 2 ^ 63))%Z.

(** One field.  An integer literal outside int64 is beyond this reader:
    it is read as a float here, and no input below has one. *)

Definition lex (s : string) : cell :=
  if existsb (String.eqb s) na_values then CNA
  else match integer s with
       | Some z => if fits_int64 z then CInt z else CNum (of_Z z)
       | None =>
           match decimal s with
           | Some x => CNum x
           | None => CText s
           end
       end.

(** Blank lines are skipped; a file without a header line is an error. *)
Definition read_csv (text : string) : result RawFrame :=
  match filter nonempty (split LF text) with
  | [] => Raise ParserError
  | header :: lines =>
      Ok {| columns := split "," header;
            rows := map (fun l => map lex (split "," l)) lines |}
  end.

Definition month_of (m : Z) : option month :=
  match m with
  | 1 => Some Jan | 2 => Some Feb | 3 => Some Mar | 4 => Some Apr
  | 5 => Some May | 6 => Some Jun | 7 => Some Jul | 8 => Some Aug
  | 9 => Some Sep | 10 => Some Oct | 11 => Some Nov | 12 => Some Dec
  | _ => None
  end%Z.

Definition is_leap (y : Z) : bool :=
  ((y mod 4 =? 0) && (negb (y mod 100 =? 0) || (y mod 400 =? 0)))%Z.

Definition days_in_month (y : Z) (m : month) : Z :=
  match m with
  | Feb => if is_leap y then 29 else 28
  | Apr | Jun | Sep | Nov => 30
  | _ => 31
  end.

Definition parse_datetime (c : cell) : option Timestamp :=
  match c with
  | CText s =>
      match split "-" s with
      | [y; m; d] =>
          if ((String.length y =? 4) && (String.length m =? 2)
              && (String.length d =? 2))%nat
          then
            match digits 0 y, digits 0 m, digits 0 d with
            | Some y, Some m, Some d =>
                match month_of m with
                | Some mo =>
                    if ((1 <=? d) && (d <=? days_in_month y mo))%Z
                    then Some (mkTimestamp y mo d 0)
                    else None
                | None => None
                end
            | _, _, _ => None
            end
          else None
      | _ => None
      end
  | _ => None
  end.

(** [load_fpl_data] over this reader in the C locale, the response being
    a 200 with the given lines as its body. *)
Definition get (lines : list string) : result Response :=
  Ok {| status_code := 200; text := unlines lines |}.

Definition load (lines : list string) : option DataFrame * list ui_event :=
  load_fpl_data read_csv parse_datetime C_locale (get lines).

End Plain.

(** ** What the statements say of frames and rows *)

(** Rows in the order of their dates. *)
Definition by_date (a b : Row) : Prop := date_leb (Date a) (Date b) = true.

(** What the derivation makes of one row. *)
Definition derived (lc_time : month -> string) (r : Row) : Prop :=
  Unit_Cost r = fdiv (Total r) (kWh r) /\
  Year r = dt_year (Date r) /\
  Month r = dt_month (Date r) /\
  Month_Name r = dt_strftime_B lc_time (Date r).

(** The frame read lacks one of the three columns the loader asks for. *)
Definition missing_column (frame : RawFrame) : Prop :=
  exists key, In key ["Date"; "kWh"; "Total"]%string /\
              ~ In key (columns frame).

(** Some entry of the [Date] column is there and is not a date. *)
Definition unreadable_date (parse_datetime : cell -> option Timestamp)
           (frame : RawFrame) : Prop :=
  exists date c,
    getitem frame "Date" = Ok date /\ In c date /\
    c <> CNA /\ parse_datetime c = None.

(** Some entry of [Total] or [kWh] is text. *)
Definition text_reading (frame : RawFrame) : Prop :=
  exists key col s,
    In key ["kWh"; "Total"]%string /\
    getitem frame key = Ok col /\ In (CText s) col.

(** [rows] is the annual table of [df]: one row for each year of the
    frame, in ascending order of the year, holding the totals and the mean
    the summary of that year shows. *)
Definition annual_table_of (df : DataFrame) (rows : list SummaryRow) : Prop :=
  StronglySorted Z.lt (map s_Year rows) /\
  (forall y, In y (map s_Year rows) <-> exists r, In r df /\ Year r = Some y) /\
  (forall s, In s rows ->
     s_kWh s = total_kwh (year_df df (Some (s_Year s))) /\
     s_Total s = total_cost (year_df df (Some (s_Year s))) /\
     s_Unit_Cost s = avg_unit_cost (year_df df (Some (s_Year s)))).

(** The records of the year [y] in a frame, in the order of the frame:
    the rows whose [Year] is [y]. *)
Definition in_year (y : Z) (r : Row) : bool :=
  match Year r with
  | Some z => (z =? y)%Z
  | None => false
  end.

Definition records_of_year (y : Z) (df : DataFrame) : DataFrame :=
  filter (in_year y) df.

(** The calendar order of two timestamps: [a] is not later than [b]. *)
Definition not_later (a b : Timestamp) : Prop :=
  (ts_year a < ts_year b)%Z \/
  (ts_year a = ts_year b /\
   ((month_number (ts_month a) < month_number (ts_month b))%Z \/
    (ts_month a = ts_month b /\
     ((ts_day a < ts_day b)%Z \/
      (ts_day a = ts_day b /\ (ts_nanos a <= ts_nanos b)%Z))))).

(** Two rows in ascending order of their dates; a row without a date
    comes after every dated one. *)
Definition dates_ascending (a b : Row) : Prop :=
  match Date a, Date b with
  | Some ta, Some tb => not_later ta tb
  | _, None => True
  | None, Some _ => False
  end.

(** The sum of a list of whole numbers, and of their magnitudes. *)
Definition Zsum (zs : list Z) : Z := fold_right Z.add 0%Z zs.

(** The row has a year, that is, its date is not missing. *)
Definition has_year (r : Row) : bool :=
  match Year r with
  | Some _ => true
  | None => false
  end.

(** Whether the year of a row is one of [ks]. *)
Definition year_among (ks : list Z) (r : Row) : bool :=
  match Year r with
  | Some y => existsb (Z.eqb y) ks
  | None => false
  end.

(** Two rows whose months are in calendar order. *)
Definition months_in_order (a b : Row) : Prop :=
  exists i j, Month a = Some i /\ Month b = Some j /\ (i <= j)%Z.

(** Two rows whose month names come in the order of the list the charts
    order their axis by. *)
Definition names_in_axis_order (a b : Row) : Prop :=
  exists na nb i j,
    Month_Name a = Some na /\ Month_Name b = Some nb /\
    index_of na categoryarray = Some i /\
    index_of nb categoryarray = Some j /\ (i <= j)%nat.

(** ** Inputs the statements are run on *)

(** Two bills of 2024 (Scenario A of the specification). *)
Definition bills_2024 : list string :=
  ["Date,kWh,Total"; "2024-01-15,500,75.00"; "2024-02-15,600,90.00"]%string.

Definition january_2024 : Row :=
  derive C_locale (Some (mkTimestamp 2024 Jan 15 0))
         (dec 7500 2) (dec 500 0) (fdiv (dec 7500 2) (dec 500 0))
         float64 int64.

Definition february_2024 : Row :=
  derive C_locale (Some (mkTimestamp 2024 Feb 15 0))
         (dec 9000 2) (dec 600 0) (fdiv (dec 9000 2) (dec 600 0))
         float64 int64.

Definition frame_2024 : DataFrame := [january_2024; february_2024].

Definition december_2023 : Row :=
  derive C_locale (Some (mkTimestamp 2023 Dec 15 0))
         (dec 6000 2) (dec 400 0) (fdiv (dec 6000 2) (dec 400 0))
         float64 int64.

Definition frame_2023_2024 : DataFrame := [december_2023; january_2024].

(** The table read from [bills_2024]. *)
Definition raw_2024 : RawFrame :=
  {| columns := ["Date"; "kWh"; "Total"]%string;
     rows := [[CText "2024-01-15"; CInt 500; CNum (dec 7500 2)];
              [CText "2024-02-15"; CInt 600; CNum (dec 9000 2)]] |}.

(** A bill with a negative reading: 100 kWh fed back, 15.00 charged. *)
Definition bill_with_negative_reading : list string :=
  ["Date,kWh,Total"; "2024-04-15,-100,15.00"]%string.

Definition april_2024 : Row :=
  derive C_locale (Some (mkTimestamp 2024 Apr 15 0))
         (dec 1500 2) (dec (-100) 0) (fdiv (dec 1500 2) (dec (-100) 0))
         float64 int64.


(** A bill with a reading of 0 kWh and a charge of 10.00. *)
Definition zero_kwh_bill : list string :=
  ["Date,kWh,Total"; "2024-03-15,0,10.00"]%string.

(** A bill of 500 kWh and one of 0 kWh in the same year. *)
Definition bills_with_zero_kwh : list string :=
  ["Date,kWh,Total"; "2024-01-15,500,75.00"; "2024-02-15,0,10.00"]%string.

(** A file without a [Total] column. *)
Definition bills_without_total : list string :=
  ["Date,kWh"; "2024-01-15,500"]%string.

(** A file whose second row has no date in it, and one whose second row
    has text for a reading. *)
Definition bills_with_bad_date : list string :=
  ["Date,kWh,Total"; "2024-01-15,500,75.00"; "yesterday,600,90.00"]%string.

Definition bills_with_bad_number : list string :=
  ["Date,kWh,Total"; "2024-01-15,500,75.00"; "2024-02-15,abc,90.00"]%string.

(** A file whose second row has an empty [Date] field. *)
Definition bills_with_undated_row : list string :=
  ["Date,kWh,Total"; "2025-01-15,500,75.00"; ",450,70.00";
   "2024-12-15,600,90.00"]%string.

(** The frame loaded from [bills_with_undated_row], and its second row. *)
Definition undated_bill : Row :=
  derive C_locale None (dec 7000 2) (dec 450 0)
         (fdiv (dec 7000 2) (dec 450 0))
         float64 int64.

Definition frame_with_undated_row : DataFrame :=
  [derive C_locale (Some (mkTimestamp 2025 Jan 15 0))
          (dec 7500 2) (dec 500 0) (fdiv (dec 7500 2) (dec 500 0))
          float64 int64;
   undated_bill;
   derive C_locale (Some (mkTimestamp 2024 Dec 15 0))
          (dec 9000 2) (dec 600 0) (fdiv (dec 9000 2) (dec 600 0))
          float64 int64].

(** The month names of a German locale, [de_DE]. *)
Definition de_DE (m : month) : string :=
  match m with
  | Jan => "Januar" | Feb => "Februar" | Mar => "Maerz" | Apr => "April"
  | May => "Mai" | Jun => "Juni" | Jul => "Juli" | Aug => "August"
  | Sep => "September" | Oct => "Oktober" | Nov => "November"
  | Dec => "Dezember"
  end%string.

(** * Properties *)

(** ** Arithmetic of the float64 model *)

Module F64Facts.

Lemma eqb_eq (a b : f64) : F64.eqb a b = true -> a = b.
Proof.
  destruct a as [x| | |], b as [y| | |]; simpl; try discriminate; try reflexivity.
  intro H. f_equal. apply Qc_is_canon. now apply Qeq_bool_iff.
Qed.

Lemma fadd_comm (a b : f64) : fadd a b = fadd b a.
Proof.
  destruct a, b; simpl; try reflexivity. f_equal. apply Qcplus_comm.
Qed.

Lemma fadd_assoc (a b c : f64) : fadd a (fadd b c) = fadd (fadd a b) c.
Proof.
  destruct a, b, c; simpl; try reflexivity. f_equal. apply Qcplus_assoc.
Qed.

Lemma fadd_zero_l (a : f64) : fadd zero a = a.
Proof.
  destruct a; simpl; try reflexivity. f_equal. apply Qcplus_0_l.
Qed.

Lemma fold_left_fadd (l : list f64) : fold_left fadd l zero = fsum l.
Proof.
  apply fold_symmetric.
  - intros; apply fadd_assoc.
  - intros; apply fadd_comm.
Qed.

Lemma fsum_perm (l l' : list f64) : Permutation l l' -> fsum l = fsum l'.
Proof.
  induction 1; simpl.
  - reflexivity.
  - now f_equal.
  - rewrite !fadd_assoc. f_equal. apply fadd_comm.
  - congruence.
Qed.

Lemma nansum_fsum (l : list f64) : nansum l = fsum (map fillna0 l).
Proof. apply fold_left_fadd. Qed.

Lemma nansum_perm (l l' : list f64) : Permutation l l' -> nansum l = nansum l'.
Proof.
  intro H. rewrite !nansum_fsum. apply fsum_perm. now apply Permutation_map.
Qed.

(** Filling NaN with 0 and leaving the NaN entries out give the same sum. *)
Lemma nansum_skipna (l : list f64) : nansum l = fsum (filter notna l).
Proof.
  rewrite nansum_fsum. induction l as [|x l IH]; simpl; [reflexivity|].
  destruct x; simpl; rewrite IH; try reflexivity.
  apply fadd_zero_l.
Qed.

Lemma nansum_nil : nansum [] = zero.
Proof. reflexivity. Qed.

(** The sum of finite values is the finite value of their exact sum. *)
Lemma nansum_finite (qs : list Qc) : nansum (map Fin qs) = Fin (Qcsum qs).
Proof.
  rewrite nansum_fsum. unfold fsum.
  induction qs as [|q qs IH]; simpl; [reflexivity|].
  now rewrite IH.
Qed.

Lemma filter_perm (A : Type) (f : A -> bool) (l l' : list A) :
  Permutation l l' -> Permutation (filter f l) (filter f l').
Proof.
  induction 1; simpl.
  - constructor.
  - destruct (f x); [now constructor | assumption].
  - destruct (f x), (f y); try apply Permutation_refl; apply perm_swap.
  - eapply perm_trans; eassumption.
Qed.

Lemma count_perm (l l' : list f64) : Permutation l l' -> count l = count l'.
Proof.
  intro H. unfold count. apply Permutation_length. now apply filter_perm.
Qed.

Lemma nanmean_perm (l l' : list f64) :
  Permutation l l' -> nanmean l = nanmean l'.
Proof.
  intro H. unfold nanmean.
  now rewrite (count_perm H), (nansum_perm H).
Qed.

(** The mean, spelt out: the plain sum of the entries that are not NaN
    over their number. *)
Lemma nanmean_skipna (l : list f64) :
  nanmean l =
  match filter notna l with
  | [] => NaN
  | v => fdiv (fsum v) (of_nat (length v))
  end.
Proof.
  unfold nanmean, count. rewrite nansum_skipna.
  destruct (filter notna l); reflexivity.
Qed.

End F64Facts.
Import F64Facts.

(** ** Sums of an int64 column *)

Lemma wrap_int64_add (a b : Z) :
  wrap_int64 (wrap_int64 a + b) = wrap_int64 (a + b).
Proof.
  unfold wrap_int64.
  replace ((a + 2 ^ 63) mod 2 ^ 64 - 2 ^ 63 + b + 2 ^ 63)%Z
    with ((a + 2 ^ 63) mod 2 ^ 64 + b)%Z by lia.
  rewrite Zplus_mod_idemp_l. f_equal. f_equal. lia.
Qed.


Lemma fold_left_add_int64 (zs : list Z) :
  forall a, fold_left add_int64 zs (wrap_int64 a) = wrap_int64 (a + Zsum zs).
Proof.
  induction zs as [|z zs IH]; intro a; simpl.
  - f_equal. lia.
  - unfold add_int64 at 2. rewrite wrap_int64_add, IH. f_equal. lia.
Qed.

Lemma Zsum_perm (l l' : list Z) : Permutation l l' -> Zsum l = Zsum l'.
Proof.
  induction 1; simpl; try lia.
Qed.

Lemma Zsum_app (l l' : list Z) : Zsum (l ++ l') = (Zsum l + Zsum l')%Z.
Proof. induction l as [|z l IH]; simpl; lia. Qed.


(** The sum of an int64 column is the sum of its entries, wrapped. *)
Lemma sum_int64_wrap (l : list f64) :
  sum_int64 l = of_Z (wrap_int64 (Zsum (map int_value l))).
Proof.
  unfold sum_int64. f_equal.
  change 0%Z with (wrap_int64 0) at 1.
  now rewrite fold_left_add_int64.
Qed.

Lemma sum_int64_perm (l l' : list f64) :
  Permutation l l' -> sum_int64 l = sum_int64 l'.
Proof.
  intro H. rewrite !sum_int64_wrap. do 2 f_equal.
  now apply Zsum_perm, Permutation_map.
Qed.

Lemma int_value_of_Z (z : Z) : int_value (of_Z z) = z.
Proof.
  unfold of_Z, int_value. cbn [Q2Qc this].
  rewrite (Qfloor_comp _ _ (Qred_correct (inject_Z z))).
  apply Qfloor_Z.
Qed.


Lemma forallb_perm (A : Type) (f : A -> bool) (l l' : list A) :
  Permutation l l' -> forallb f l = forallb f l'.
Proof.
  induction 1; simpl; try congruence.
  now rewrite !andb_assoc, (andb_comm (f y)).
Qed.

Lemma column_dtype_perm (l l' : list dtype) :
  Permutation l l' -> column_dtype l = column_dtype l'.
Proof. intro H. unfold column_dtype. now rewrite (forallb_perm _ H). Qed.

(** The sum of a column does not depend on the order of the rows. *)
Lemma Series_sum_perm (tag : Row -> dtype) (f : Row -> f64)
      (l l' : DataFrame) :
  Permutation l l' ->
  Series_sum (column_dtype (map tag l)) (map f l)
  = Series_sum (column_dtype (map tag l')) (map f l').
Proof.
  intro H.
  rewrite (column_dtype_perm (Permutation_map tag H)).
  destruct (column_dtype _); simpl.
  - now apply sum_int64_perm, Permutation_map.
  - now apply nansum_perm, Permutation_map.
Qed.

(** ** Sorting *)

Section InsertionSortFacts.

Variable A : Type.
Variable leb : A -> A -> bool.

Let le (x y : A) : Prop := leb x y = true.

Lemma insert_perm (x : A) (l : list A) : Permutation (x :: l) (insert leb x l).
Proof.
  induction l as [|y t IH]; simpl.
  - apply Permutation_refl.
  - destruct (leb x y).
    + apply Permutation_refl.
    + eapply perm_trans; [apply perm_swap|]. now apply perm_skip.
Qed.

Lemma isort_perm (l : list A) : Permutation l (isort leb l).
Proof.
  induction l as [|x t IH]; simpl.
  - constructor.
  - eapply perm_trans; [|apply insert_perm]. now apply perm_skip.
Qed.

Hypothesis leb_total : forall x y, leb x y = true \/ leb y x = true.
Hypothesis leb_trans : forall x y z, le x y -> le y z -> le x z.

Lemma insert_sorted (x : A) (l : list A) :
  StronglySorted le l -> StronglySorted le (insert leb x l).
Proof.
  induction 1 as [|y t Hs IH Hall]; simpl.
  - repeat constructor.
  - destruct (leb x y) eqn:E.
    + constructor; [now constructor|].
      constructor; [exact E|].
      eapply Forall_impl; [|exact Hall]. intros z Hz. now apply leb_trans with y.
    + constructor; [exact IH|].
      assert (Hyx : le y x) by (destruct (leb_total x y); [congruence|assumption]).
      eapply Permutation_Forall; [apply insert_perm|].
      now constructor.
Qed.

Lemma isort_sorted (l : list A) : StronglySorted le (isort leb l).
Proof.
  induction l as [|x t IH]; simpl.
  - constructor.
  - now apply insert_sorted.
Qed.

End InsertionSortFacts.

Lemma lex_leb_total (a b : list Z) : lex_leb a b = true \/ lex_leb b a = true.
Proof.
  revert b. induction a as [|x a IH]; intros [|y b]; simpl; auto.
  destruct (Z.ltb_spec x y), (Z.ltb_spec y x); auto; lia.
Qed.

Lemma lex_leb_trans (a b c : list Z) :
  lex_leb a b = true -> lex_leb b c = true -> lex_leb a c = true.
Proof.
  revert b c. induction a as [|x a IH]; intros [|y b] [|z c]; simpl; auto;
    try discriminate.
  destruct (Z.ltb_spec x y), (Z.ltb_spec y x), (Z.ltb_spec y z),
    (Z.ltb_spec z y), (Z.ltb_spec x z), (Z.ltb_spec z x);
    try discriminate; try lia; auto.
  apply IH.
Qed.

Lemma date_leb_total (a b : option Timestamp) :
  date_leb a b = true \/ date_leb b a = true.
Proof.
  destruct a, b; simpl; auto. apply lex_leb_total.
Qed.

Lemma date_leb_trans (a b c : option Timestamp) :
  date_leb a b = true -> date_leb b c = true -> date_leb a c = true.
Proof.
  destruct a, b, c; simpl; auto; try discriminate. apply lex_leb_trans.
Qed.

Lemma sort_values_Date_perm (df : DataFrame) :
  Permutation df (sort_values_Date df).
Proof. apply isort_perm. Qed.

Lemma sort_values_Date_sorted (df : DataFrame) :
  StronglySorted by_date (sort_values_Date df).
Proof.
  apply isort_sorted.
  - intros x y. apply date_leb_total.
  - intros x y z. apply date_leb_trans.
Qed.

Section StronglySortedFacts.

Variable A : Type.
Variable R : A -> A -> Prop.

Lemma StronglySorted_app (l1 l2 : list A) :
  StronglySorted R l1 -> StronglySorted R l2 ->
  (forall x y, In x l1 -> In y l2 -> R x y) ->
  StronglySorted R (l1 ++ l2).
Proof.
  induction l1 as [|a l1 IH]; simpl; intros H1 H2 Hc; [assumption|].
  apply StronglySorted_inv in H1 as [H1 Ha].
  constructor.
  - apply IH; auto.
  - apply Forall_app; split; [assumption|].
    apply Forall_forall. intros y Hy. apply Hc; auto.
Qed.

Lemma StronglySorted_app_inv (l1 l2 : list A) :
  StronglySorted R (l1 ++ l2) ->
  StronglySorted R l1 /\ StronglySorted R l2 /\
  (forall x y, In x l1 -> In y l2 -> R x y).
Proof.
  induction l1 as [|a l1 IH]; simpl; intro H.
  - repeat split; [constructor | assumption | intros x y []].
  - apply StronglySorted_inv in H as [H Ha].
    destruct (IH H) as (H1 & H2 & Hc).
    apply Forall_app in Ha as [Ha1 Ha2].
    repeat split; [now constructor | assumption |].
    intros x y [<-|Hx] Hy; [|now apply Hc].
    rewrite Forall_forall in Ha2. now apply Ha2.
Qed.

Lemma StronglySorted_nth (l : list A) (i j : nat) (x y : A) :
  StronglySorted R l -> (i < j)%nat ->
  nth_error l i = Some x -> nth_error l j = Some y -> R x y.
Proof.
  intro H. revert i j. induction H as [|a l Hs IH Ha]; intros i j Hij Hi Hj.
  - destruct i; discriminate.
  - destruct j as [|j]; [lia|]. simpl in Hj.
    destruct i as [|i]; simpl in Hi.
    + injection Hi as <-. rewrite Forall_forall in Ha.
      apply Ha. eapply nth_error_In; eassumption.
    + apply (IH i j); [lia | assumption | assumption].
Qed.

End StronglySortedFacts.

Lemma StronglySorted_rev (A : Type) (R : A -> A -> Prop) (l : list A) :
  StronglySorted R l -> StronglySorted (fun a b => R b a) (rev l).
Proof.
  induction 1 as [|a l Hs IH Ha]; simpl; [constructor|].
  apply StronglySorted_app; [assumption | repeat constructor |].
  intros x y Hx [<-|[]]. apply in_rev in Hx.
  rewrite Forall_forall in Ha. now apply Ha.
Qed.

Lemma StronglySorted_impl (A : Type) (R S : A -> A -> Prop) (l : list A) :
  (forall a b, R a b -> S a b) -> StronglySorted R l -> StronglySorted S l.
Proof.
  intros HRS. induction 1 as [|a l Hs IH Ha]; constructor; [assumption|].
  eapply Forall_impl; [|exact Ha]. auto.
Qed.

Module PySortFacts.
Import PySort.

Section Perm.

Variable A : Type.
Variable lt : A -> A -> bool.

Lemma take_run_app (d : bool) (l : list A) :
  forall prev run rest,
    take_run lt d prev l = (run, rest) -> l = run ++ rest.
Proof.
  induction l as [|x t IH]; simpl; intros prev run rest H.
  - now injection H as <- <-.
  - destruct (Bool.eqb (lt x prev) d).
    + destruct (take_run lt d x t) as [r s] eqn:E.
      injection H as <- <-. simpl. f_equal. now apply (IH x).
    + now injection H as <- <-.
Qed.

Lemma count_run_perm (l run rest : list A) :
  count_run lt l = (run, rest) -> Permutation l (run ++ rest).
Proof.
  destruct l as [|a [|b t]]; simpl; intro H.
  - injection H as <- <-. constructor.
  - injection H as <- <-. apply Permutation_refl.
  - destruct (take_run lt (lt b a) b t) as [r s] eqn:E.
    injection H as <- <-. apply take_run_app in E. subst t.
    change (a :: b :: r ++ s) with ((a :: b :: r) ++ s).
    apply Permutation_app; [|apply Permutation_refl].
    destruct (lt b a); [apply Permutation_rev | apply Permutation_refl].
Qed.

Lemma binary_insert_perm (a : list A) (pivot : A) :
  Permutation (pivot :: a) (binary_insert lt a pivot).
Proof.
  unfold binary_insert.
  set (k := bisect lt (S (length a)) a pivot 0 (length a)).
  rewrite <- (firstn_skipn k a) at 1. apply Permutation_middle.
Qed.

Lemma fold_insert_perm (rest : list A) :
  forall run, Permutation (run ++ rest) (fold_left (binary_insert lt) rest run).
Proof.
  induction rest as [|x rest IH]; simpl; intro run.
  - rewrite app_nil_r. apply Permutation_refl.
  - eapply perm_trans; [|apply IH].
    eapply perm_trans; [apply Permutation_sym, Permutation_middle|].
    change (x :: run ++ rest) with ((x :: run) ++ rest).
    apply Permutation_app; [apply binary_insert_perm | apply Permutation_refl].
Qed.

Lemma sorted_perm (l : list A) : Permutation l (sorted lt l).
Proof.
  unfold sorted. destruct (count_run lt l) as [run rest] eqn:E.
  eapply perm_trans; [apply (count_run_perm _ E) | apply fold_insert_perm].
Qed.

End Perm.

Section Order.

Variable A : Type.
Variable lt : A -> A -> bool.

(** [lt] is a strict total order: it is asymmetric, and what is below
    [y] is below everything that is not below [y]. *)
Hypothesis lt_asym : forall a b, lt a b = true -> lt b a = false.
Hypothesis lt_neg_trans :
  forall x y z, lt x y = true -> lt z y = false -> lt x z = true.

Definition le (a b : A) : Prop := lt b a = false.

Lemma le_refl (a : A) : le a a.
Proof.
  unfold le. destruct (lt a a) eqn:E; [|reflexivity].
  now rewrite (@lt_asym _ _ E) in E.
Qed.

Lemma le_trans (a b c : A) : le a b -> le b c -> le a c.
Proof.
  unfold le. intros Hab Hbc. destruct (lt c a) eqn:E; [|reflexivity].
  now rewrite (@lt_neg_trans _ _ _ E Hab) in Hbc.
Qed.

Lemma take_run_chain (d : bool) (l : list A) :
  forall prev run rest,
    take_run lt d prev l = (run, rest) ->
    Sorted (fun a b => lt b a = d) (prev :: run).
Proof.
  induction l as [|x t IH]; simpl; intros prev run rest H.
  - injection H as <- <-. repeat constructor.
  - destruct (Bool.eqb (lt x prev) d) eqn:Ed.
    + destruct (take_run lt d x t) as [r s] eqn:E.
      injection H as <- <-. apply eqb_prop in Ed.
      constructor; [now apply (IH x _ _ E) | now constructor].
    + injection H as <- <-. repeat constructor.
Qed.

Lemma count_run_sorted (l run rest : list A) :
  count_run lt l = (run, rest) -> StronglySorted le run.
Proof.
  destruct l as [|a [|b t]]; simpl; intro H.
  - injection H as <- <-. constructor.
  - injection H as <- <-. repeat constructor.
  - destruct (take_run lt (lt b a) b t) as [r s] eqn:E.
    injection H as <- <-. apply take_run_chain in E.
    assert (Hc : Sorted (fun x y => lt y x = lt b a) (a :: b :: r))
      by (constructor; [assumption | now constructor]).
    destruct (lt b a) eqn:Eba.
    + apply Sorted_StronglySorted in Hc.
      * apply StronglySorted_rev in Hc.
        eapply StronglySorted_impl; [|exact Hc].
        intros x y Hxy. simpl in Hxy. now apply lt_asym.
      * intros x y z Hyx Hzy.
        apply lt_neg_trans with y; [assumption | now apply lt_asym].
    + apply Sorted_StronglySorted in Hc; [exact Hc|].
      intros x y z. apply le_trans.
Qed.

Section Bisect.

Variable a : list A.
Variable pivot : A.
Hypothesis a_sorted : StronglySorted le a.

Lemma sorted_nth_le (i j : nat) (x y : A) :
  (i <= j)%nat -> nth_error a i = Some x -> nth_error a j = Some y ->
  le x y.
Proof.
  intros Hij Hi Hj. destruct (Nat.eq_dec i j) as [->|Hne].
  - rewrite Hi in Hj. injection Hj as <-. apply le_refl.
  - apply (StronglySorted_nth a_sorted (i := i) (j := j)); auto. lia.
Qed.

(** Everything left of [l] is not above the pivot, everything from [r]
    on is above it. *)
Definition below (l : nat) : Prop :=
  forall i x, (i < l)%nat -> nth_error a i = Some x -> lt pivot x = false.
Definition above (r : nat) : Prop :=
  forall i x, (r <= i)%nat -> nth_error a i = Some x -> lt pivot x = true.

Lemma bisect_spec (fuel : nat) :
  forall l r,
    (r - l < fuel)%nat -> (l <= r <= length a)%nat ->
    below l -> above r ->
    let k := bisect lt fuel a pivot l r in
    (l <= k <= r)%nat /\ below k /\ above k.
Proof.
  induction fuel as [|fuel IH]; intros l r Hf Hlr Hl Hr; [lia|].
  simpl. destruct (Nat.ltb_spec l r) as [Hlt|Hge].
  - assert (Hd : (Nat.div2 (r - l) < r - l)%nat)
      by (apply Nat.lt_div2; lia).
    revert Hd. generalize (Nat.div2 (r - l)). intros d Hd.
    remember (l + d)%nat as p eqn:Ep'.
    assert (Hp : (l <= p < r)%nat) by lia. clear Ep' Hd d.
    destruct (nth_error a p) as [ap|] eqn:Ep.
    + destruct (lt pivot ap) eqn:Elt.
      * destruct (IH l p) as (Hk & Hb & Ha); try lia; try assumption.
        { intros i x Hi Hx.
          apply lt_neg_trans with ap; [assumption|].
          apply (sorted_nth_le (i := p) (j := i)); assumption. }
        split; [lia | now split].
      * destruct (IH (S p) r) as (Hk & Hb & Ha); try lia; try assumption.
        { intros i x Hi Hx.
          destruct (lt pivot x) eqn:Ex; [|reflexivity].
          assert (Hle : le x ap)
            by (apply (sorted_nth_le (i := i) (j := p)); auto; lia).
          now rewrite (@lt_neg_trans _ _ _ Ex Hle) in Elt. }
        split; [lia | now split].
    + apply nth_error_None in Ep. lia.
  - assert (l = r) by lia. subst r. split; [lia | now split].
Qed.

Lemma binary_insert_sorted : StronglySorted le (binary_insert lt a pivot).
Proof.
  unfold binary_insert.
  set (k := bisect lt (S (length a)) a pivot 0 (length a)).
  destruct (bisect_spec (fuel := S (length a)) (l := 0) (r := length a))
    as (Hk & Hb & Ha); try lia.
  { intros i x Hi. lia. }
  { intros i x Hi Hx.
    assert (nth_error a i <> None) by congruence.
    apply nth_error_Some in H. lia. }
  fold k in Hk, Hb, Ha.
  pose proof a_sorted as Hs. rewrite <- (firstn_skipn k a) in Hs.
  apply StronglySorted_app_inv in Hs as (H1 & H2 & Hc).
  apply StronglySorted_app; [assumption | |].
  - constructor; [assumption|].
    apply Forall_forall. intros y Hy.
    apply In_nth_error in Hy as [i Hi]. rewrite nth_error_skipn in Hi.
    apply lt_asym. apply (Ha (k + i)%nat); [lia | assumption].
  - intros x y Hx [<-|Hy]; [|now apply Hc].
    apply In_nth_error in Hx as [i Hi]. rewrite nth_error_firstn in Hi.
    destruct (Nat.ltb_spec i k); [|discriminate].
    apply (Hb i); assumption.
Qed.

End Bisect.

Lemma fold_insert_sorted (rest : list A) :
  forall run, StronglySorted le run ->
              StronglySorted le (fold_left (binary_insert lt) rest run).
Proof.
  induction rest as [|x rest IH]; simpl; intros run H; [assumption|].
  apply IH. now apply binary_insert_sorted.
Qed.

Lemma sorted_sorted (l : list A) : StronglySorted le (sorted lt l).
Proof.
  unfold sorted. destruct (count_run lt l) as [run rest] eqn:E.
  apply fold_insert_sorted. eapply count_run_sorted; eassumption.
Qed.

End Order.

(** [sorted] commutes with a map that preserves the comparison. *)
Section Natural.

Variables A B : Type.
Variable f : A -> B.
Variable ltA : A -> A -> bool.
Variable ltB : B -> B -> bool.
Hypothesis f_lt : forall a b, ltB (f a) (f b) = ltA a b.

Lemma take_run_map (d : bool) (l : list A) :
  forall prev,
    take_run ltB d (f prev) (map f l) =
    (map f (fst (take_run ltA d prev l)), map f (snd (take_run ltA d prev l))).
Proof.
  induction l as [|x t IH]; simpl; intro prev; [reflexivity|].
  rewrite f_lt. destruct (Bool.eqb (ltA x prev) d); [|reflexivity].
  rewrite IH. now destruct (take_run ltA d x t).
Qed.

Lemma count_run_map (l : list A) :
  count_run ltB (map f l) =
  (map f (fst (count_run ltA l)), map f (snd (count_run ltA l))).
Proof.
  destruct l as [|a [|b t]]; simpl; try reflexivity.
  rewrite f_lt, take_run_map.
  destruct (take_run ltA (ltA b a) b t) as [r s]. simpl.
  destruct (ltA b a); simpl; [|reflexivity].
  now rewrite !map_app, map_rev.
Qed.

Lemma bisect_map (fuel : nat) (a : list A) (pivot : A) :
  forall l r,
    bisect ltB fuel (map f a) (f pivot) l r = bisect ltA fuel a pivot l r.
Proof.
  induction fuel as [|fuel IH]; simpl; intros l r; [reflexivity|].
  destruct (l <? r)%nat; [|reflexivity].
  rewrite nth_error_map.
  destruct (nth_error a (l + Nat.div2 (r - l))); simpl; [|reflexivity].
  rewrite f_lt, !IH. reflexivity.
Qed.

Lemma binary_insert_map (a : list A) (pivot : A) :
  binary_insert ltB (map f a) (f pivot) = map f (binary_insert ltA a pivot).
Proof.
  unfold binary_insert.
  rewrite length_map, bisect_map, firstn_map, skipn_map, map_app.
  reflexivity.
Qed.

Lemma fold_insert_map (rest : list A) :
  forall run,
    fold_left (binary_insert ltB) (map f rest) (map f run) =
    map f (fold_left (binary_insert ltA) rest run).
Proof.
  induction rest as [|x rest IH]; simpl; intro run; [reflexivity|].
  now rewrite binary_insert_map, IH.
Qed.

Lemma sorted_map (l : list A) : sorted ltB (map f l) = map f (sorted ltA l).
Proof.
  unfold sorted. rewrite count_run_map.
  destruct (count_run ltA l) as [run rest]. simpl. apply fold_insert_map.
Qed.

End Natural.

End PySortFacts.

(** ** The list of years and the group keys *)

Lemma same_year_eq (a b : option Z) : same_year a b = true <-> a = b.
Proof.
  destruct a as [x|], b as [y|]; simpl; split; intro H;
    try discriminate; try reflexivity.
  - apply Z.eqb_eq in H. now subst.
  - injection H as ->. apply Z.eqb_refl.
Qed.

Lemma seen_In (y : option Z) (seen : list (option Z)) :
  existsb (same_year y) seen = true <-> In y seen.
Proof.
  rewrite existsb_exists. split.
  - intros (x & Hx & E). apply same_year_eq in E. now subst.
  - intro H. exists y. split; [assumption | now apply same_year_eq].
Qed.

Lemma unique_from_In (y : option Z) (l : list (option Z)) :
  forall seen, In y (unique_from seen l) <-> In y l /\ ~ In y seen.
Proof.
  induction l as [|x t IH]; simpl; intro seen; [tauto|].
  destruct (existsb (same_year x) seen) eqn:E.
  - apply seen_In in E. rewrite IH. split.
    + tauto.
    + intros [[<-|H] Hn]; tauto.
  - assert (Hx : ~ In x seen) by (rewrite <- seen_In; congruence).
    simpl. rewrite IH. simpl. split.
    + intros [<-|[H Hn]]; tauto.
    + intros [[<-|H] Hn]; [tauto|].
      destruct (same_year x y) eqn:Exy.
      * apply same_year_eq in Exy. tauto.
      * right. split; [assumption|]. intros [->|Hs]; [|tauto].
        assert (same_year y y = true) by now apply same_year_eq. congruence.
Qed.

Lemma unique_from_NoDup (l : list (option Z)) :
  forall seen, NoDup (unique_from seen l).
Proof.
  induction l as [|x t IH]; simpl; intro seen; [constructor|].
  destruct (existsb (same_year x) seen); [apply IH|].
  constructor; [|apply IH].
  rewrite unique_from_In. simpl. tauto.
Qed.

Lemma unique_In (y : option Z) (l : list (option Z)) :
  In y (unique l) <-> In y l.
Proof. unfold unique. rewrite unique_from_In. simpl. tauto. Qed.

Lemma unique_NoDup (l : list (option Z)) : NoDup (unique l).
Proof. apply unique_from_NoDup. Qed.

Lemma dropna_years_In (y : Z) (l : list (option Z)) :
  In y (dropna_years l) <-> In (Some y) l.
Proof.
  induction l as [|[x|] t IH]; simpl; [tauto | |].
  - rewrite IH. split; intros [H|H]; auto; left; congruence.
  - rewrite IH. split; [auto|]. intros [H|H]; [discriminate | assumption].
Qed.

Lemma dropna_years_all (l : list (option Z)) :
  (forall y, In y l -> y <> None) -> l = map Some (dropna_years l).
Proof.
  induction l as [|[x|] t IH]; simpl; intro H; [reflexivity | |].
  - f_equal. apply IH. intros y Hy. apply H. now right.
  - exfalso. apply (H None); auto.
Qed.

Lemma dedup_In (y : Z) (l : list Z) : In y (dedup l) <-> In y l.
Proof.
  induction l as [|x t IH]; simpl; [tauto|].
  rewrite filter_In, IH. destruct (Z.eqb_spec y x); simpl.
  - subst. tauto.
  - split; [tauto|]. intros [H|H]; [congruence | auto].
Qed.

Lemma dedup_NoDup (l : list Z) : NoDup (dedup l).
Proof.
  induction l as [|x t IH]; simpl; constructor.
  - rewrite filter_In, Z.eqb_refl. simpl. intros [_ H]. discriminate.
  - now apply NoDup_filter.
Qed.

Lemma ascending_distinct (l : list Z) :
  StronglySorted Z.le l -> NoDup l -> StronglySorted Z.lt l.
Proof.
  induction 1 as [|a l Hs IH Ha]; intro Hn; constructor.
  - apply IH. now inversion Hn.
  - inversion Hn as [|? ? Hnot _]; subst.
    rewrite Forall_forall in *. intros x Hx.
    specialize (Ha x Hx). assert (a <> x) by congruence. lia.
Qed.

Lemma year_present (df : DataFrame) (y : option Z) :
  In y (map Year df) <-> exists r, In r df /\ Year r = y.
Proof.
  rewrite in_map_iff. split; intros (r & H1 & H2); exists r; tauto.
Qed.

Lemma group_keys_ascending (df : DataFrame) :
  StronglySorted Z.lt (group_keys df).
Proof.
  unfold group_keys. apply ascending_distinct.
  - eapply StronglySorted_impl; [|apply isort_sorted].
    + intros a b H. simpl in H. now apply Z.leb_le.
    + intros x y. destruct (Z.leb_spec x y), (Z.leb_spec y x); auto; lia.
    + intros x y z H1 H2. apply Z.leb_le in H1, H2. apply Z.leb_le. lia.
  - eapply Permutation_NoDup; [apply isort_perm | apply dedup_NoDup].
Qed.

Lemma group_keys_In (df : DataFrame) (y : Z) :
  In y (group_keys df) <-> exists r, In r df /\ Year r = Some y.
Proof.
  unfold group_keys.
  transitivity (In y (dedup (dropna_years (map Year df)))).
  - split; apply Permutation_in;
      [apply Permutation_sym|]; apply isort_perm.
  - rewrite dedup_In, dropna_years_In. apply year_present.
Qed.

(** With no NaN in the [Year] column, [available_years] is the ascending
    list of the years of the frame. *)
Lemma available_years_dated (df : DataFrame) :
  (forall r, In r df -> Year r <> None) ->
  exists ys,
    available_years df = map Some ys /\
    StronglySorted Z.lt ys /\
    (forall y, In y ys <-> exists r, In r df /\ Year r = Some y).
Proof.
  intro Hd. unfold available_years.
  set (u := unique (map Year df)).
  assert (Hu : u = map Some (dropna_years u)).
  { apply dropna_years_all. intros y Hy E. subst y.
    apply unique_In, year_present in Hy as (r & Hr & E).
    now apply (Hd r). }
  set (zs := dropna_years u) in *.
  exists (PySort.sorted Z.ltb zs). split; [|split].
  - rewrite Hu. apply PySortFacts.sorted_map. reflexivity.
  - apply ascending_distinct.
    + assert (Hs : StronglySorted (PySortFacts.le Z.ltb) (PySort.sorted Z.ltb zs)).
      { apply PySortFacts.sorted_sorted.
        - intros a b H. apply Z.ltb_lt in H. apply Z.ltb_ge. lia.
        - intros x y z H1 H2. apply Z.ltb_lt in H1. apply Z.ltb_ge in H2.
          apply Z.ltb_lt. lia. }
      eapply StronglySorted_impl; [|exact Hs].
      unfold PySortFacts.le. intros a b H. now apply Z.ltb_ge in H.
    + eapply Permutation_NoDup; [apply PySortFacts.sorted_perm|].
      apply (NoDup_map_inv Some). rewrite <- Hu. apply unique_NoDup.
  - intro y. transitivity (In y zs).
    + split; apply Permutation_in;
        [apply Permutation_sym|]; apply PySortFacts.sorted_perm.
    + unfold zs. rewrite dropna_years_In. unfold u.
      rewrite unique_In. apply year_present.
Qed.

(** ** The loader *)

Lemma index_of_None (name : string) (l : list string) :
  index_of name l = None <-> ~ In name l.
Proof.
  induction l as [|c t IH]; simpl; [tauto|].
  destruct (String.eqb_spec name c) as [->|Hne].
  - split; [discriminate | tauto].
  - destruct (index_of name t); simpl.
    + split; [discriminate|]. intro H.
      assert (Hn : ~ In name t) by tauto.
      apply IH in Hn. discriminate.
    + split; [|reflexivity]. intros _ [E|H]; [congruence|].
      now apply (proj1 IH).
Qed.

Lemma getitem_missing (df : RawFrame) (key : string) :
  ~ In key (columns df) -> getitem df key = Raise (KeyError key).
Proof.
  intro H. unfold getitem. apply index_of_None in H. now rewrite H.
Qed.

Lemma mapM_Ok (A B : Type) (f : A -> result B) (l : list A) :
  forall l', mapM f l = Ok l' ->
             length l' = length l /\ forall a, In a l -> exists b, f a = Ok b.
Proof.
  induction l as [|x t IH]; simpl; intros l' H.
  - injection H as <-. split; [reflexivity | intros a []].
  - destruct (f x) as [b|e] eqn:Ex; simpl in H; [|discriminate].
    destruct (mapM f t) as [bs|e] eqn:Et; simpl in H; [|discriminate].
    injection H as <-. destruct (IH bs eq_refl) as [Hl Ha].
    split; [simpl; congruence|].
    intros a [<-|Ha']; [eauto | now apply Ha].
Qed.

Lemma assemble_derived (lc_time : month -> string) (dt dk : dtype)
      (ds : list (option Timestamp)) :
  forall totals kwhs r,
    In r (assemble lc_time dt dk ds totals kwhs
            (map (fun p => fdiv (fst p) (snd p)) (combine totals kwhs))) ->
    derived lc_time r.
Proof.
  induction ds as [|d ds IH]; intros [|t ts] [|k ks] r; simpl; try tauto.
  intros [<-|H]; [|now apply (IH ts ks)].
  repeat split.
Qed.

Lemma combine_to_float (a b : list cell) :
  map (fun p => fdiv (to_float (fst p)) (to_float (snd p))) (combine a b)
  = map (fun p => fdiv (fst p) (snd p))
        (combine (map to_float a) (map to_float b)).
Proof.
  revert b. induction a as [|x a IH]; intros [|y b]; simpl; try reflexivity.
  now rewrite IH.
Qed.

(** The quotients of a division that did not raise. *)
Lemma truediv_Ok (a b : list cell) (q : list f64) :
  truediv a b = Ok q ->
  q = map (fun p => fdiv (fst p) (snd p))
          (combine (map to_float a) (map to_float b)).
Proof.
  unfold truediv. destruct (_ || _); [discriminate|].
  intro H. injection H as <-. apply combine_to_float.
Qed.

(** Text in an operand column makes the division raise. *)
Lemma truediv_text (a b : list cell) (s : string) :
  In (CText s) a \/ In (CText s) b -> truediv a b = Raise TypeError.
Proof.
  intros Hs. unfold truediv.
  assert (E : existsb is_text a || existsb is_text b = true).
  { apply orb_true_iff.
    destruct Hs as [H|H]; [left | right];
      apply existsb_exists; exists (CText s); auto. }
  now rewrite E.
Qed.

Section LoaderFacts.

Variable read_csv : string -> result RawFrame.
Variable parse_datetime : cell -> option Timestamp.
Variable lc_time : month -> string.

Let load := load_fpl_data read_csv parse_datetime lc_time.
Let try := load_fpl_data_try read_csv parse_datetime lc_time.

(** A successful run went through every step. *)
Lemma try_Ok (get : result Response) (df : DataFrame) :
  try get = Ok df ->
  exists response frame date total kwh dates,
    get = Ok response /\
    raise_for_status response = Ok tt /\
    read_csv (text response) = Ok frame /\
    getitem frame "Date" = Ok date /\
    mapM (to_datetime parse_datetime) date = Ok dates /\
    getitem frame "Total" = Ok total /\
    getitem frame "kWh" = Ok kwh /\
    truediv total kwh
    = Ok (map (fun p => fdiv (fst p) (snd p))
              (combine (map to_float total) (map to_float kwh))) /\
    df = assemble lc_time (infer_dtype total) (infer_dtype kwh)
           dates (map to_float total) (map to_float kwh)
           (map (fun p => fdiv (fst p) (snd p))
                (combine (map to_float total) (map to_float kwh))).
Proof.
  unfold try, load_fpl_data_try. intro H.
  destruct get as [response|e]; simpl in H; [|discriminate].
  destruct (raise_for_status response) as [[]|e] eqn:E1; simpl in H;
    [|discriminate].
  destruct (read_csv (text response)) as [frame|e] eqn:E2; simpl in H;
    [|discriminate].
  destruct (getitem frame "Date") as [date|e] eqn:E3; simpl in H;
    [|discriminate].
  destruct (mapM (to_datetime parse_datetime) date) as [dates|e] eqn:E4;
    simpl in H; [|discriminate].
  destruct (getitem frame "Total") as [total|e] eqn:E5; simpl in H;
    [|discriminate].
  destruct (getitem frame "kWh") as [kwh|e] eqn:E6; simpl in H;
    [|discriminate].
  destruct (truediv total kwh) as [unit_cost|e] eqn:E7; simpl in H;
    [|discriminate].
  pose proof (truediv_Ok _ _ E7) as Hq. subst unit_cost.
  injection H as <-.
  exists response, frame, date, total, kwh, dates.
  repeat split; try reflexivity; try assumption.
Qed.

Lemma load_cases (get : result Response) :
  (exists df, try get = Ok df /\ load get = (Some df, [])) \/
  (exists e, try get = Raise e /\ load get = (None, [st_error e])).
Proof.
  unfold load, load_fpl_data. fold try.
  destruct (try get) as [df|e]; [left | right]; eauto.
Qed.

Lemma load_Some (get : result Response) (df : DataFrame) :
  fst (load get) = Some df -> try get = Ok df.
Proof.
  destruct (load_cases get) as [(d & Ht & Hl)|(e & Ht & Hl)];
    rewrite Hl; simpl; intro H; [|discriminate].
  injection H as <-. exact Ht.
Qed.

(** When the body of the [try] cannot succeed, the loader hands back
    [None] and reports the exception to the page. *)
Lemma load_None (get : result Response) :
  (forall df, try get <> Ok df) ->
  exists e, load get = (None, [st_error e]).
Proof.
  intro H. destruct (load_cases get) as [(d & Ht & _)|(e & _ & Hl)].
  - now apply H in Ht.
  - eauto.
Qed.

Lemma load_derived (get : result Response) (df : DataFrame) (r : Row) :
  fst (load get) = Some df -> In r df -> derived lc_time r.
Proof.
  intros H Hr. apply load_Some, try_Ok in H.
  destruct H as (response & frame & date & total & kwh & dates
                 & _ & _ & _ & _ & _ & _ & _ & _ & ->).
  eapply assemble_derived; eassumption.
Qed.

Lemma fetch_failure_None (e : exn) :
  load (Raise e) = (None, [st_error e]).
Proof. reflexivity. Qed.

Lemma bad_status_None (response : Response) :
  (400 <= status_code response < 600)%Z ->
  load (Ok response) = (None, [st_error (HTTPError (status_code response))]).
Proof.
  intro H. unfold load, load_fpl_data, load_fpl_data_try, raise_for_status.
  simpl.
  destruct (Z.leb_spec 400 (status_code response)); [|lia].
  destruct (Z.ltb_spec (status_code response) 600); [|lia].
  reflexivity.
Qed.

Lemma missing_column_None (response : Response) (frame : RawFrame)
      (key : string) :
  read_csv (text response) = Ok frame ->
  In key ["Date"; "kWh"; "Total"]%string ->
  ~ In key (columns frame) ->
  exists e, load (Ok response) = (None, [st_error e]).
Proof.
  intros Hf Hk Hm. apply load_None. intros df H.
  apply try_Ok in H.
  destruct H as (response' & frame' & date & total & kwh & dates
                 & Hg & _ & Hf' & Hd & _ & Ht & Hw & _).
  injection Hg as <-. rewrite Hf in Hf'. injection Hf' as <-.
  apply getitem_missing in Hm.
  simpl in Hk. destruct Hk as [<-|[<-|[<-|[]]]]; congruence.
Qed.

Lemma bad_date_None (response : Response) (frame : RawFrame)
      (date : list cell) (c : cell) :
  read_csv (text response) = Ok frame ->
  getitem frame "Date" = Ok date ->
  In c date -> c <> CNA -> parse_datetime c = None ->
  exists e, load (Ok response) = (None, [st_error e]).
Proof.
  intros Hf Hd Hc Hna Hp. apply load_None. intros df H.
  apply try_Ok in H.
  destruct H as (response' & frame' & date' & total & kwh & dates
                 & Hg & _ & Hf' & Hd' & Hm & _).
  injection Hg as <-. rewrite Hf in Hf'. injection Hf' as <-.
  rewrite Hd in Hd'. injection Hd' as <-.
  apply mapM_Ok in Hm as [_ Hm]. destruct (Hm c Hc) as [t Ht].
  unfold to_datetime in Ht. rewrite Hp in Ht.
  destruct c; congruence.
Qed.

Lemma text_number_None (response : Response) (frame : RawFrame)
      (key : string) (col : list cell) (s : string) :
  read_csv (text response) = Ok frame ->
  In key ["kWh"; "Total"]%string ->
  getitem frame key = Ok col ->
  In (CText s) col ->
  exists e, load (Ok response) = (None, [st_error e]).
Proof.
  intros Hf Hk Hc Hs. apply load_None. intros df H.
  apply try_Ok in H.
  destruct H as (response' & frame' & date & total & kwh & dates
                 & Hg & _ & Hf' & _ & _ & Ht & Hw & Hq & _).
  injection Hg as <-. rewrite Hf in Hf'. injection Hf' as <-.
  simpl in Hk. destruct Hk as [<-|[<-|[]]].
  - rewrite Hc in Hw. injection Hw as <-.
    rewrite (@truediv_text total col s (or_intror Hs)) in Hq. discriminate.
  - rewrite Hc in Ht. injection Ht as <-.
    rewrite (@truediv_text col kwh s (or_introl Hs)) in Hq. discriminate.
Qed.

End LoaderFacts.

(** ** Division by a zero reading *)

Lemma fdiv_pos (t k : Qc) :
  (0 < k)%Qc -> fdiv (Fin t) (Fin k) = Fin (t / k)%Qc.
Proof.
  intro H. assert (E : (k ?= 0)%Qc = Gt) by (apply Qcgt_alt; exact H).
  simpl. now rewrite E.
Qed.

Lemma fdiv_zero (t : Qc) :
  (t <> 0%Qc -> isinf (fdiv (Fin t) zero) = true) /\
  (t = 0%Qc -> fdiv (Fin t) zero = NaN).
Proof.
  unfold zero. simpl. destruct (t ?= 0)%Qc eqn:E.
  - apply Qceq_alt in E. split; [congruence | reflexivity].
  - split; [reflexivity|]. intros ->. discriminate.
  - split; [reflexivity|]. intros ->. discriminate.
Qed.

(** * The claims *)


(** C1, as stated, fails: the bill [2024-03-15,0,10.00] loads, and its unit
    cost is the float [inf], which the claim rules out. *)
Lemma zero_kwh_unit_cost_is_inf :
  exists df r,
    fst (Plain.load zero_kwh_bill) = Some df /\ In r df /\
    kWh r = zero /\ Unit_Cost r = PInf.
Proof.
  eexists. eexists. split; [vm_compute; reflexivity|].
  split; [left; reflexivity|].
  split; vm_compute; reflexivity.
Qed.

(** C1, amended: in every row of a loaded frame whose [Total] and [kWh]
    are finite numbers, [Unit_Cost] is [Total / kWh] when [kWh > 0]; when
    [kWh] is 0 it is what float division gives and nothing is raised: an
    infinity when [Total] is not 0, and NaN when [Total] is 0. *)
Theorem unit_cost_is_float_division
        (read_csv : string -> result RawFrame)
        (parse_datetime : cell -> option Timestamp)
        (lc_time : month -> string)
        (get : result Response) (df : DataFrame) (r : Row) (t k : Qc) :
  fst (load_fpl_data read_csv parse_datetime lc_time get) = Some df ->
  In r df ->
  Total r = Fin t -> kWh r = Fin k ->
  ((0 < k)%Qc -> Unit_Cost r = Fin (t / k)%Qc) /\
  (k = 0%Qc -> t <> 0%Qc -> isinf (Unit_Cost r) = true) /\
  (k = 0%Qc -> t = 0%Qc -> Unit_Cost r = NaN).
Proof.
  intros Hl Hr Ht Hk.
  destruct (@load_derived _ _ _ _ _ _ Hl Hr) as (Hu & _).
  rewrite Hu, Ht, Hk. split; [apply fdiv_pos|].
  split; intros ->; apply fdiv_zero.
Qed.

(** The January bill of [bills_2024]: 75.00 for 500 kWh. *)
Lemma unit_cost_is_float_division_witness :
  Unit_Cost january_2024 = Fin (Q2Qc (7500 # 100) / Q2Qc (500 # 1))%Qc.
Proof.
  apply (@unit_cost_is_float_division
           Plain.read_csv Plain.parse_datetime C_locale
           (Plain.get bills_2024) frame_2024 january_2024
           (Q2Qc (7500 # 100)) (Q2Qc (500 # 1))).
  - vm_compute. reflexivity.
  - left. reflexivity.
  - reflexivity.
  - reflexivity.
  - reflexivity.
Defined.

(** ** The rows of one year and their totals *)

Lemma year_eq_Some (a : option Z) (y : Z) :
  year_eq a (Some y) = true <-> a = Some y.
Proof.
  destruct a as [x|]; simpl; [|split; discriminate].
  rewrite Z.eqb_eq. split; congruence.
Qed.

Lemma year_df_perm (df : DataFrame) (selected_year : option Z) :
  Permutation (filter (fun r => year_eq (Year r) selected_year) df)
              (year_df df selected_year).
Proof. apply sort_values_Date_perm. Qed.

Lemma year_df_column (A : Type) (f : Row -> A) (df : DataFrame)
      (selected_year : option Z) :
  Permutation (map f (year_df df selected_year))
              (map f (filter (fun r => year_eq (Year r) selected_year) df)).
Proof. apply Permutation_map, Permutation_sym, year_df_perm. Qed.

Lemma total_kwh_year_df (df : DataFrame) (selected_year : option Z) :
  let g := filter (fun r => year_eq (Year r) selected_year) df in
  total_kwh (year_df df selected_year) =
  Series_sum (column_dtype (map kWh_dtype g)) (map kWh g).
Proof.
  cbv zeta. unfold total_kwh.
  apply Series_sum_perm, Permutation_sym, year_df_perm.
Qed.

Lemma total_cost_year_df (df : DataFrame) (selected_year : option Z) :
  let g := filter (fun r => year_eq (Year r) selected_year) df in
  total_cost (year_df df selected_year) =
  Series_sum (column_dtype (map Total_dtype g)) (map Total g).
Proof.
  cbv zeta. unfold total_cost.
  apply Series_sum_perm, Permutation_sym, year_df_perm.
Qed.

Lemma avg_unit_cost_year_df (df : DataFrame) (selected_year : option Z) :
  avg_unit_cost (year_df df selected_year) =
  nanmean (map Unit_Cost
             (filter (fun r => year_eq (Year r) selected_year) df)).
Proof. apply nanmean_perm, year_df_column. Qed.

Lemma num_bills_year_df (df : DataFrame) (selected_year : option Z) :
  num_bills (year_df df selected_year) =
  length (filter (fun r => year_eq (Year r) selected_year) df).
Proof. apply Permutation_length, Permutation_sym, year_df_perm. Qed.

Lemma count_complement (l : list f64) :
  (length (filter notna l) = length l - length (filter isnan l))%nat.
Proof.
  assert (H : (length (filter notna l) + length (filter isnan l)
               = length l)%nat).
  { induction l as [|x l IH]; simpl; [reflexivity|].
    unfold notna at 1. destruct (isnan x); simpl; lia. }
  lia.
Qed.

Lemma annual_summary_In (df : DataFrame) (s : SummaryRow) :
  In s (annual_summary df) ->
  In (s_Year s) (group_keys df) /\
  s_kWh s = Series_sum (column_dtype (map kWh_dtype (group df (s_Year s))))
                       (map kWh (group df (s_Year s))) /\
  s_Total s = Series_sum (column_dtype (map Total_dtype (group df (s_Year s))))
                         (map Total (group df (s_Year s))) /\
  s_Unit_Cost s = nanmean (map Unit_Cost (group df (s_Year s))).
Proof.
  unfold annual_summary. rewrite in_map_iff.
  intros (y & <- & Hy). simpl. auto.
Qed.

Lemma annual_summary_years (df : DataFrame) :
  map s_Year (annual_summary df) = group_keys df.
Proof.
  unfold annual_summary. rewrite map_map. simpl. apply map_id.
Qed.

(** C2, as stated, fails: of the two bills of 2024 one has 0 kWh, so one
    unit cost is defined (0.15) and one is not; the mean is not 0.15, the
    mean over the defined one, but the float [inf], in the summary of the
    year and in the annual table alike. *)
Lemma mean_counts_zero_kwh_bill :
  exists df r1 r2,
    fst (Plain.load bills_with_zero_kwh) = Some df /\ df = [r1; r2] /\
    Unit_Cost r1 = dec 15 2 /\ kWh r2 = zero /\
    avg_unit_cost (year_df df (Some 2024%Z)) = PInf /\
    map s_Unit_Cost (annual_summary df) = [PInf].
Proof.
  eexists. eexists. eexists. split; [vm_compute; reflexivity|].
  split; [reflexivity|].
  split; [apply eqb_eq; vm_compute; reflexivity|].
  repeat split; vm_compute; reflexivity.
Qed.

(** C2, amended: for the rows of a year, [avg_unit_cost] is the mean over
    exactly the unit costs that are not NaN, the N - M of them when M of
    the N are NaN, and NaN when none is left.  An infinite unit cost (a
    bill with 0 kWh and a charge) is not NaN and is counted.  The row of
    that year in the annual summary holds the same value. *)
Theorem avg_unit_cost_skips_nan (df : DataFrame) (y : Z) :
  let g := group df y in
  let v := filter notna (map Unit_Cost g) in
  let mean :=
    match v with
    | [] => NaN
    | _ => fdiv (fsum v) (of_nat (length v))
    end in
  avg_unit_cost (year_df df (Some y)) = mean /\
  (forall s, In s (annual_summary df) -> s_Year s = y ->
             s_Unit_Cost s = mean) /\
  (length v = length g - length (filter isnan (map Unit_Cost g)))%nat.
Proof.
  cbv zeta. split; [|split].
  - rewrite avg_unit_cost_year_df, nanmean_skipna. unfold group.
    now destruct (filter notna _).
  - intros s Hs <-. apply annual_summary_In in Hs as (_ & _ & _ & ->).
    rewrite nanmean_skipna. now destruct (filter notna _).
  - rewrite count_complement. now rewrite length_map.
Qed.

(** The order of the sort is the calendar order. *)
Lemma month_number_inj (m m' : month) :
  month_number m = month_number m' -> m = m'.
Proof. destruct m, m'; simpl; intro H; try reflexivity; discriminate. Qed.

Lemma ts_leb_not_later (a b : Timestamp) :
  ts_leb a b = true <-> not_later a b.
Proof.
  assert (Hm : ts_month a = ts_month b <->
               month_number (ts_month a) = month_number (ts_month b)).
  { split; [congruence | apply month_number_inj]. }
  unfold not_later. rewrite Hm.
  unfold ts_leb, ts_key, lex_leb.
  repeat match goal with
         | |- context [(?x <? ?y)%Z] => destruct (Z.ltb_spec x y)
         end; split; intro Hle; try discriminate; try reflexivity; lia.
Qed.

Lemma by_date_dates_ascending (a b : Row) :
  by_date a b <-> dates_ascending a b.
Proof.
  unfold by_date, dates_ascending, date_leb.
  destruct (Date a), (Date b); try apply ts_leb_not_later;
    split; auto; discriminate.
Qed.

Lemma not_later_antisym (a b : Timestamp) :
  not_later a b -> not_later b a -> a = b.
Proof.
  unfold not_later. destruct a as [ya ma da na], b as [yb mb db nb]. simpl.
  intros H1 H2.
  assert (E : ya = yb /\ ma = mb /\ da = db /\ na = nb).
  { destruct H1 as [H1|(Ey & [H1|(Em & [H1|(Ed & H1)])])];
      destruct H2 as [H2|(Ey' & [H2|(Em' & [H2|(Ed' & H2)])])];
      subst; try lia; repeat split; lia. }
  destruct E as (-> & -> & -> & ->). reflexivity.
Qed.

Lemma dates_ascending_antisym (a b : Row) :
  dates_ascending a b -> dates_ascending b a -> Date a = Date b.
Proof.
  unfold dates_ascending. destruct (Date a), (Date b); try tauto.
  intros H1 H2. f_equal. now apply not_later_antisym.
Qed.

Lemma year_df_ascending (df : DataFrame) (selected_year : option Z) :
  StronglySorted dates_ascending (year_df df selected_year).
Proof.
  eapply StronglySorted_impl; [|apply sort_values_Date_sorted].
  intros a b. apply by_date_dates_ascending.
Qed.

(** Two sorted arrangements of the same elements are the same list when
    the order tells any two of the elements apart. *)
Lemma sorted_perm_unique (A : Type) (R : A -> A -> Prop) (l : list A) :
  forall l',
    (forall a b, In a l -> In b l -> R a b -> R b a -> a = b) ->
    StronglySorted R l -> StronglySorted R l' -> Permutation l l' -> l = l'.
Proof.
  induction l as [|a l IH]; intros l' Hanti Hs Hs' Hp.
  - apply Permutation_nil in Hp. now subst.
  - destruct l' as [|b l'].
    { apply Permutation_sym, Permutation_nil in Hp. discriminate. }
    apply StronglySorted_inv in Hs as [Hs Ha].
    apply StronglySorted_inv in Hs' as [Hs' Hb].
    rewrite Forall_forall in Ha, Hb.
    assert (E : a = b).
    { assert (Ia : In a (b :: l'))
        by (eapply Permutation_in; [exact Hp | now left]).
      assert (Ib : In b (a :: l))
        by (eapply Permutation_in;
            [apply Permutation_sym; exact Hp | now left]).
      destruct Ia as [->|Ia]; [reflexivity|].
      destruct Ib as [->|Ib]; [reflexivity|].
      apply Hanti; [now left | now right | now apply Ha | now apply Hb]. }
    subst b. f_equal. apply IH; try assumption.
    + intros x z Hx Hz. apply Hanti; now right.
    + eapply Permutation_cons_inv; exact Hp.
Qed.

Lemma NoDup_map_inj (A B : Type) (f : A -> B) (l : list A) (a b : A) :
  NoDup (map f l) -> In a l -> In b l -> f a = f b -> a = b.
Proof.
  induction l as [|x l IH]; simpl; [tauto|].
  intros Hn Ha Hb E. apply NoDup_cons_iff in Hn as [Hx Hn].
  destruct Ha as [->|Ha], Hb as [->|Hb]; auto.
  - exfalso. apply Hx. rewrite E. now apply in_map.
  - exfalso. apply Hx. rewrite <- E. now apply in_map.
Qed.

Lemma in_year_year_eq (y : Z) (r : Row) :
  in_year y r = year_eq (Year r) (Some y).
Proof. unfold in_year, year_eq. now destruct (Year r). Qed.

Lemma in_year_iff (y : Z) (r : Row) : in_year y r = true <-> Year r = Some y.
Proof. rewrite in_year_year_eq. apply year_eq_Some. Qed.

Lemma records_of_year_filter (y : Z) (df : DataFrame) :
  records_of_year y df = filter (fun r => year_eq (Year r) (Some y)) df.
Proof. apply filter_ext. intro r. apply in_year_year_eq. Qed.

Lemma records_of_year_perm (y : Z) (df : DataFrame) :
  Permutation (records_of_year y df) (year_df df (Some y)).
Proof. rewrite records_of_year_filter. apply year_df_perm. Qed.

(** C5: for every frame and year, [year_df] holds exactly the records of
    that year, each as often as the frame does, in ascending calendar
    order of [Date]; reordering the rows of the input changes nothing but
    the order among rows of the same date, and nothing at all when no two
    records of the year share a date. *)
Theorem year_df_is_the_year_by_date (df : DataFrame) (y : Z) :
  Permutation (records_of_year y df) (year_df df (Some y)) /\
  (forall r, In r (year_df df (Some y)) <-> In r df /\ Year r = Some y) /\
  StronglySorted dates_ascending (year_df df (Some y)) /\
  (forall df', Permutation df df' ->
               Permutation (year_df df (Some y)) (year_df df' (Some y)) /\
               StronglySorted dates_ascending (year_df df' (Some y)) /\
               (NoDup (map Date (records_of_year y df)) ->
                year_df df' (Some y) = year_df df (Some y))).
Proof.
  split; [apply records_of_year_perm|]. split; [|split].
  - intro r.
    transitivity (In r (records_of_year y df)).
    + split; apply Permutation_in;
        [apply Permutation_sym|]; apply records_of_year_perm.
    + unfold records_of_year. rewrite filter_In, in_year_iff. reflexivity.
  - apply year_df_ascending.
  - intros df' H.
    assert (Hp : Permutation (year_df df (Some y)) (year_df df' (Some y))).
    { eapply perm_trans; [apply Permutation_sym, year_df_perm|].
      eapply perm_trans; [|apply year_df_perm].
      now apply filter_perm. }
    split; [exact Hp|]. split; [apply year_df_ascending|].
    intro Hn. symmetry.
    apply (@sorted_perm_unique Row dates_ascending);
      try apply year_df_ascending; [|exact Hp].
    intros a b Ha Hb Hab Hba.
    assert (Hn' : NoDup (map Date (year_df df (Some y)))).
    { eapply Permutation_NoDup; [|exact Hn].
      apply Permutation_map, records_of_year_perm. }
    apply (@NoDup_map_inj _ _ Date _ a b Hn' Ha Hb).
    now apply dates_ascending_antisym.
Qed.




Lemma column_dtype_int64 (A : Type) (tag : A -> dtype) (l : list A) :
  Forall (fun r => tag r = int64) l -> column_dtype (map tag l) = int64.
Proof.
  intro H. unfold column_dtype.
  replace (forallb is_int64 (map tag l)) with true; [reflexivity|].
  symmetry. apply forallb_forall. intros d Hd.
  apply in_map_iff in Hd as (r & <- & Hr).
  rewrite Forall_forall in H. now rewrite (H r Hr).
Qed.


(** ** Failures of the load *)

(** C3, as stated, fails: on a file without [Total] no
    [MalformedInputError] is raised; the [KeyError] of the column lookup is
    caught inside the loader, which returns [None] and reports the
    exception as a message on the page. *)
Lemma missing_total_returns_None :
  Plain.load bills_without_total = (None, [st_error (KeyError "Total")]).
Proof. vm_compute. reflexivity. Qed.

(** C3, amended: when [Date], [kWh] or [Total] is not among the columns
    read, [load_fpl_data] returns [None], so no frame and no record at
    all, and reports the exception it caught to the page; no error leaves
    the loader. *)
Theorem missing_column_returns_None
        (read_csv : string -> result RawFrame)
        (parse_datetime : cell -> option Timestamp)
        (lc_time : month -> string)
        (response : Response) (frame : RawFrame) (key : string) :
  read_csv (text response) = Ok frame ->
  In key ["Date"; "kWh"; "Total"]%string ->
  ~ In key (columns frame) ->
  exists e,
    load_fpl_data read_csv parse_datetime lc_time (Ok response)
    = (None, [st_error e]).
Proof. apply missing_column_None. Qed.

(** The file [bills_without_total]. *)
Lemma missing_column_returns_None_witness :
  exists e,
    load_fpl_data Plain.read_csv Plain.parse_datetime C_locale
                  (Plain.get bills_without_total)
    = (None, [st_error e]).
Proof.
  apply (@missing_column_returns_None
           Plain.read_csv Plain.parse_datetime C_locale
           {| status_code := 200; text := Plain.unlines bills_without_total |}
           {| columns := ["Date"; "kWh"]%string;
              rows := [[CText "2024-01-15"; CInt 500]] |}
           "Total"%string).
  - vm_compute. reflexivity.
  - simpl. auto.
  - simpl. intros [H|[H|[]]]; discriminate H.
Defined.

(** C4, as stated, fails: a row with an unreadable date, or with text for
    a reading, raises no [RowParseError]; the loader returns [None], the
    same value as for a missing column, and the exception it caught (for
    the reading a [TypeError] that names no row, column or value) only
    goes into the message on the page. *)
Lemma malformed_row_returns_None_only :
  Plain.load bills_with_bad_date
  = (None, [st_error (DateParseError (CText "yesterday"))]) /\
  Plain.load bills_with_bad_number = (None, [st_error TypeError]) /\
  fst (Plain.load bills_with_bad_number)
  = fst (Plain.load bills_without_total).
Proof. repeat split; vm_compute; reflexivity. Qed.

(** C4, amended: when some entry of the [Date] column is there and is
    not a date, or some entry of [kWh] or [Total] is text, the whole load
    returns [None]: no frame, neither partial nor with the row left out,
    and the exception caught is reported to the page. *)
Theorem malformed_row_returns_None
        (read_csv : string -> result RawFrame)
        (parse_datetime : cell -> option Timestamp)
        (lc_time : month -> string)
        (response : Response) (frame : RawFrame) :
  read_csv (text response) = Ok frame ->
  unreadable_date parse_datetime frame \/ text_reading frame ->
  exists e,
    load_fpl_data read_csv parse_datetime lc_time (Ok response)
    = (None, [st_error e]).
Proof.
  intros Hf [(date & c & Hd & Hc & Hna & Hp)
            |(key & col & s & Hk & Hc & Hs)].
  - eapply bad_date_None; eassumption.
  - eapply text_number_None; eassumption.
Qed.

(** The file [bills_with_bad_date]. *)
Lemma malformed_row_returns_None_witness :
  exists e,
    load_fpl_data Plain.read_csv Plain.parse_datetime C_locale
                  (Plain.get bills_with_bad_date)
    = (None, [st_error e]).
Proof.
  apply (@malformed_row_returns_None
           Plain.read_csv Plain.parse_datetime C_locale
           {| status_code := 200; text := Plain.unlines bills_with_bad_date |}
           {| columns := ["Date"; "kWh"; "Total"]%string;
              rows := [[CText "2024-01-15"; CInt 500; CNum (dec 7500 2)];
                       [CText "yesterday"; CInt 600; CNum (dec 9000 2)]] |}).
  - vm_compute. reflexivity.
  - left. exists [CText "2024-01-15"; CText "yesterday"], (CText "yesterday").
    split; [reflexivity|]. split; [simpl; auto|].
    split; [discriminate | reflexivity].
Defined.

(** C10: whatever the fetch and the library make of the input,
    [load_fpl_data] returns either a frame, every row of which is fully
    derived, or [None]; it is [None] for a failed fetch, an error status,
    an unreadable file, a missing column, an unreadable date and a
    reading that is text alike, so the value returned does not tell these
    apart and carries nothing of the error; the exception only goes, as
    text, to the page. *)
Theorem load_returns_frame_or_None
        (read_csv : string -> result RawFrame)
        (parse_datetime : cell -> option Timestamp)
        (lc_time : month -> string)
        (get : result Response) :
  let load := load_fpl_data read_csv parse_datetime lc_time in
  ((exists df, load get = (Some df, []) /\
               forall r, In r df -> derived lc_time r) \/
   (exists e, load get = (None, [st_error e]))) /\
  (forall e, fst (load (Raise e)) = None) /\
  (forall response,
      (400 <= status_code response < 600)%Z ->
      fst (load (Ok response)) = None) /\
  (forall response e,
      read_csv (text response) = Raise e -> fst (load (Ok response)) = None) /\
  (forall response frame,
      read_csv (text response) = Ok frame ->
      missing_column frame \/ unreadable_date parse_datetime frame \/
      text_reading frame ->
      fst (load (Ok response)) = None).
Proof.
  cbv zeta. split; [|split; [|split; [|split]]].
  - destruct (load_cases read_csv parse_datetime lc_time get)
      as [(df & Ht & Hl)|(e & Ht & Hl)].
    + left. exists df. split; [exact Hl|].
      intros r Hr. eapply load_derived; [|exact Hr]. rewrite Hl. reflexivity.
    + right. eauto.
  - reflexivity.
  - intros response H.
    now rewrite (@bad_status_None read_csv parse_datetime lc_time response H).
  - intros response e H.
    unfold load_fpl_data, load_fpl_data_try. simpl.
    destruct (raise_for_status response) as [[]|e']; simpl; [|reflexivity].
    now rewrite H.
  - intros response frame Hf
           [(key & Hk & Hm)
           |[(date & c & Hd & Hc & Hna & Hp)
            |(key' & col & s & Hk' & Hc' & Hs)]].
    + destruct (@missing_column_None read_csv parse_datetime lc_time
                  response frame key Hf Hk Hm)
        as [e ->]. reflexivity.
    + destruct (@bad_date_None read_csv parse_datetime lc_time
                  response frame date c Hf Hd Hc Hna Hp)
        as [e ->]. reflexivity.
    + destruct (@text_number_None read_csv parse_datetime lc_time
                  response frame key' col s Hf Hk' Hc' Hs)
        as [e ->]. reflexivity.
Qed.

(** ** The years on offer *)

(** C7, a defect of the code.  The file [bills_with_undated_row] loads;
    its empty date is read as NaT and the year of that row as NaN, which
    is below nothing and above nothing, so that [sorted] leaves the list
    of years as [2025, nan, 2024]: not ascending, and with an entry that
    is no year.  The select box then starts on the last entry, 2024,
    where line 62 means it to start on the most recent year: the frame
    has a bill of 2025. *)
Theorem available_years_with_undated_row :
  exists df,
    fst (Plain.load bills_with_undated_row) = Some df /\
    available_years df = [Some 2025%Z; None; Some 2024%Z] /\
    ~ StronglySorted Z.lt [2025%Z; 2024%Z] /\
    default_selected_year (available_years df) = Some 2024%Z /\
    (exists r, In r df /\ Year r = Some 2025%Z).
Proof.
  eexists. split; [vm_compute; reflexivity|].
  split; [vm_compute; reflexivity|].
  split.
  { intro H. apply StronglySorted_inv in H as [_ H].
    apply Forall_inv in H. lia. }
  split; [vm_compute; reflexivity|].
  eexists. split; [left; reflexivity | reflexivity].
Qed.

(** ** Calendar parts *)

(** C8, as stated, fails: [Month_Name] is what [strftime('%B')] prints in
    the locale of the process, not an entry of a fixed table; with
    LC_TIME set to German the January bill is named "Januar", which the
    table of English names does not hold. *)
Lemma month_name_follows_locale :
  exists df r,
    fst (load_fpl_data Plain.read_csv Plain.parse_datetime de_DE
                       (Plain.get bills_2024)) = Some df /\
    In r df /\ Month r = Some 1%Z /\
    Month_Name r = Some "Januar"%string /\
    ~ In "Januar"%string categoryarray.
Proof.
  eexists. eexists. split; [vm_compute; reflexivity|].
  split; [left; reflexivity|].
  split; [reflexivity|]. split; [reflexivity|].
  simpl. intros H. repeat (destruct H as [H|H]; [discriminate H|]). exact H.
Qed.

(** C8, amended: in every row of a loaded frame that has a date, [Year]
    and [Month] are the year and the month (1 to 12) of [Date], and
    [Month_Name] is the name [strftime('%B')] gives that month in the
    locale of the process; in the C locale, which a Python process has
    unless it sets another, that name is the full English one, the entry
    of the month in the 12-entry list the charts are ordered by.  A row
    without a date has NaN in all three. *)
Theorem calendar_parts_follow_date
        (read_csv : string -> result RawFrame)
        (parse_datetime : cell -> option Timestamp)
        (lc_time : month -> string)
        (get : result Response) (df : DataFrame) (r : Row) :
  fst (load_fpl_data read_csv parse_datetime lc_time get) = Some df ->
  In r df ->
  (forall t, Date r = Some t ->
     Year r = Some (ts_year t) /\
     Month r = Some (month_number (ts_month t)) /\
     (1 <= month_number (ts_month t) <= 12)%Z /\
     Month_Name r = Some (lc_time (ts_month t)) /\
     nth_error categoryarray (Z.to_nat (month_number (ts_month t) - 1))
     = Some (C_locale (ts_month t))) /\
  (Date r = None -> Year r = None /\ Month r = None /\ Month_Name r = None).
Proof.
  intros Hl Hr.
  destruct (@load_derived _ _ _ _ _ _ Hl Hr) as (_ & Hy & Hm & Hn).
  rewrite Hy, Hm, Hn. split.
  - intros t ->. simpl.
    repeat split; destruct (ts_month t); simpl; reflexivity || lia.
  - intros ->. repeat split.
Qed.

(** The January bill of [bills_2024] in the C locale. *)
Lemma calendar_parts_follow_date_witness :
  Year january_2024 = Some 2024%Z /\
  Month january_2024 = Some 1%Z /\
  Month_Name january_2024 = Some "January"%string.
Proof.
  destruct (@calendar_parts_follow_date
              Plain.read_csv Plain.parse_datetime C_locale
              (Plain.get bills_2024) frame_2024 january_2024)
    as [H _].
  - vm_compute. reflexivity.
  - left. reflexivity.
  - destruct (H (mkTimestamp 2024 Jan 15 0) eq_refl) as (Hy & Hm & _ & Hn & _).
    split; [exact Hy|]. split; [exact Hm | exact Hn].
Defined.

(** ** The annual summary *)

(** C9, as stated, fails: for the two bills of 2024, a frame with one
    year, the annual summary is not produced at all (line 161 asks for
    more than one year on offer). *)
Lemma one_year_has_no_annual_summary :
  exists df,
    fst (Plain.load bills_2024) = Some df /\
    available_years df = [Some 2024%Z] /\
    year_over_year df (Some 2024%Z) = None.
Proof. eexists. repeat split; vm_compute; reflexivity. Qed.

(** C9, amended: when the selected year has rows and more than one year
    is on offer, the annual summary is produced, and it is the same
    whichever year is selected: one row for each year of the whole
    frame, ascending by year, with the sums and the mean of the per-year
    summary.  With a single year on offer no annual summary is made. *)
Theorem annual_summary_when_shown (df : DataFrame) (selected_year : option Z) :
  (0 < length (year_df df selected_year))%nat ->
  (1 < length (available_years df))%nat ->
  year_over_year df selected_year = Some (annual_summary df) /\
  annual_table_of df (annual_summary df).
Proof.
  intros H0 H1. split.
  - unfold year_over_year.
    apply Nat.ltb_lt in H0, H1. now rewrite H0, H1.
  - split; [|split].
    + rewrite annual_summary_years. apply group_keys_ascending.
    + intro y. rewrite annual_summary_years. apply group_keys_In.
    + intros s Hs. apply annual_summary_In in Hs as (_ & -> & -> & ->).
      rewrite total_kwh_year_df, total_cost_year_df, avg_unit_cost_year_df.
      repeat split.
Qed.

(** A bill of December 2023 and one of January 2024, with 2024 selected. *)
Lemma annual_summary_when_shown_witness :
  year_over_year frame_2023_2024 (Some 2024%Z)
  = Some (annual_summary frame_2023_2024) /\
  annual_table_of frame_2023_2024 (annual_summary frame_2023_2024).
Proof.
  apply (annual_summary_when_shown frame_2023_2024 (Some 2024%Z)).
  - vm_compute. lia.
  - vm_compute. lia.
Defined.

(** * Further properties of the code *)

(** ** What a successful load keeps *)

Lemma getitem_length (frame : RawFrame) (key : string) (col : list cell) :
  getitem frame key = Ok col -> length col = length (rows frame).
Proof.
  unfold getitem. destruct (index_of key (columns frame)); [|discriminate].
  intro H. injection H as <-. apply length_map.
Qed.

Lemma getitem_present (frame : RawFrame) (key : string) :
  In key (columns frame) -> exists col, getitem frame key = Ok col.
Proof.
  intro H. unfold getitem.
  destruct (index_of key (columns frame)) eqn:E; [eauto|].
  now apply index_of_None in E.
Qed.

Lemma assemble_columns (lc_time : month -> string) (dt dk : dtype)
      (ds : list (option Timestamp)) :
  forall ts ks,
    length ts = length ds -> length ks = length ds ->
    let df := assemble lc_time dt dk ds ts ks
                (map (fun p => fdiv (fst p) (snd p)) (combine ts ks)) in
    length df = length ds /\ map Date df = ds /\
    map Total df = ts /\ map kWh df = ks.
Proof.
  induction ds as [|d ds IH]; intros [|t ts] [|k ks]; simpl;
    try discriminate; intros Ht Hk.
  - repeat split.
  - destruct (IH ts ks) as (Hl & Hd & Hts & Hks); [lia | lia |].
    repeat split; f_equal; assumption.
Qed.

(** X1: a frame that loads has one row for each row read, in the order of
    the file, and its [Date], [Total] and [kWh] columns are the columns
    read, converted entry by entry; no row is dropped, merged or moved. *)
Theorem load_keeps_rows
        (read_csv : string -> result RawFrame)
        (parse_datetime : cell -> option Timestamp)
        (lc_time : month -> string)
        (response : Response) (frame : RawFrame) (df : DataFrame) :
  read_csv (text response) = Ok frame ->
  fst (load_fpl_data read_csv parse_datetime lc_time (Ok response)) = Some df ->
  length df = length (rows frame) /\
  exists date total kwh,
    getitem frame "Date" = Ok date /\
    getitem frame "Total" = Ok total /\
    getitem frame "kWh" = Ok kwh /\
    mapM (to_datetime parse_datetime) date = Ok (map Date df) /\
    map Total df = map to_float total /\
    map kWh df = map to_float kwh.
Proof.
  intros Hf Hl. apply load_Some, try_Ok in Hl.
  destruct Hl as (response' & frame' & date & total & kwh & dates
                  & Hg & _ & Hf' & Hd & Hm & Ht & Hw & _ & ->).
  injection Hg as <-. rewrite Hf in Hf'. injection Hf' as <-.
  pose proof (getitem_length _ _ Hd) as Ld.
  pose proof (getitem_length _ _ Ht) as Lt.
  pose proof (getitem_length _ _ Hw) as Lw.
  destruct (mapM_Ok _ _ Hm) as [Lm _].
  destruct (assemble_columns lc_time (infer_dtype total) (infer_dtype kwh)
                             dates (map to_float total) (map to_float kwh))
    as (Hl & HD & HT & HK); try (rewrite length_map; lia).
  split; [lia|].
  exists date, total, kwh. rewrite HD, HT, HK.
  repeat split; assumption || reflexivity.
Qed.

(** The two bills of [bills_2024]. *)
Lemma load_keeps_rows_witness :
  length frame_2024 = length (rows raw_2024) /\
  exists date total kwh,
    getitem raw_2024 "Date" = Ok date /\
    getitem raw_2024 "Total" = Ok total /\
    getitem raw_2024 "kWh" = Ok kwh /\
    mapM (to_datetime Plain.parse_datetime) date = Ok (map Date frame_2024) /\
    map Total frame_2024 = map to_float total /\
    map kWh frame_2024 = map to_float kwh.
Proof.
  apply (@load_keeps_rows
           Plain.read_csv Plain.parse_datetime C_locale
           {| status_code := 200; text := Plain.unlines bills_2024 |}
           raw_2024 frame_2024).
  - vm_compute. reflexivity.
  - vm_compute. reflexivity.
Defined.




(** ** When the load succeeds *)

Lemma mapM_all (A B : Type) (f : A -> result B) (l : list A) :
  (forall a, In a l -> exists b, f a = Ok b) -> exists l', mapM f l = Ok l'.
Proof.
  induction l as [|x t IH]; simpl; intro H; [eauto|].
  destruct (H x) as [b Hb]; [auto|].
  destruct IH as [bs Hbs]; [auto|].
  rewrite Hb, Hbs. simpl. eauto.
Qed.

Lemma is_text_In (a : list cell) :
  existsb is_text a = true -> exists s, In (CText s) a.
Proof.
  intro H. apply existsb_exists in H as (c & Hc & Ht).
  destruct c; try discriminate. eauto.
Qed.

(** A division that raises saw text. *)
Lemma truediv_Raise (a b : list cell) (e : exn) :
  truediv a b = Raise e ->
  exists s, In (CText s) a \/ In (CText s) b.
Proof.
  unfold truediv.
  destruct (existsb is_text a || existsb is_text b) eqn:E1; simpl;
    [|discriminate].
  intros _.
  apply orb_true_iff in E1 as [E1|E1]; apply is_text_In in E1 as [s Hs];
    exists s; auto.
Qed.

(** X2: once the file is read, the load succeeds exactly when the status
    is no error status, the three columns are there, every date that is
    there can be read, and no reading is text; nothing else makes it
    return [None]. *)
Theorem load_succeeds_iff
        (read_csv : string -> result RawFrame)
        (parse_datetime : cell -> option Timestamp)
        (lc_time : month -> string)
        (response : Response) (frame : RawFrame) :
  read_csv (text response) = Ok frame ->
  ((exists df,
       fst (load_fpl_data read_csv parse_datetime lc_time (Ok response))
       = Some df) <->
   ~ (400 <= status_code response < 600)%Z /\
   ~ missing_column frame /\
   ~ unreadable_date parse_datetime frame /\
   ~ text_reading frame).
Proof.
  intro Hf. split.
  - intros [df H]. repeat split.
    + intro Hs.
      rewrite (@bad_status_None read_csv parse_datetime lc_time response Hs)
        in H. discriminate.
    + intros (key & Hk & Hm).
      destruct (@missing_column_None read_csv parse_datetime lc_time
                  response frame key Hf Hk Hm) as [e He].
      rewrite He in H. discriminate.
    + intros (date & c & Hd & Hc & Hna & Hp).
      destruct (@bad_date_None read_csv parse_datetime lc_time
                  response frame date c Hf Hd Hc Hna Hp) as [e He].
      rewrite He in H. discriminate.
    + intros (key & col & s & Hk & Hc & Hs).
      destruct (@text_number_None read_csv parse_datetime lc_time
                  response frame key col s Hf Hk Hc Hs)
        as [e He].
      rewrite He in H. discriminate.
  - intros (Hs & Hm & Hd & Ht).
    assert (Hr : raise_for_status response = Ok tt).
    { unfold raise_for_status.
      destruct (Z.leb_spec 400 (status_code response)),
               (Z.ltb_spec (status_code response) 600);
        simpl; try reflexivity. lia. }
    assert (Hcol : forall key, In key ["Date"; "kWh"; "Total"]%string ->
                               exists col, getitem frame key = Ok col).
    { intros key Hk. apply getitem_present.
      destruct (in_dec string_dec key (columns frame)) as [Hin|Hout];
        [assumption|].
      exfalso. apply Hm. exists key. auto. }
    destruct (Hcol "Date"%string) as [date HD]; [simpl; auto|].
    destruct (Hcol "Total"%string) as [total HT]; [simpl; auto|].
    destruct (Hcol "kWh"%string) as [kwh HW]; [simpl; auto|].
    destruct (@mapM_all _ _ (to_datetime parse_datetime) date) as [dates HM].
    { intros c Hc. unfold to_datetime.
      destruct (parse_datetime c) as [t|] eqn:Ep.
      - destruct c; eauto.
      - destruct c; eauto; exfalso; apply Hd;
          eexists; eexists; (split; [exact HD|]);
          (split; [exact Hc|]); (split; [discriminate | exact Ep]). }
    destruct (truediv total kwh) as [unit_cost|e] eqn:HQ.
    + exists (assemble lc_time (infer_dtype total) (infer_dtype kwh)
                       dates (map to_float total) (map to_float kwh)
                       unit_cost).
      unfold load_fpl_data, load_fpl_data_try, bind.
      now rewrite Hr, Hf, HD, HM, HT, HW, HQ.
    + exfalso. apply Ht.
      apply truediv_Raise in HQ as (s & [Hin|Hin]).
      * exists "Total"%string, total, s. simpl. auto.
      * exists "kWh"%string, kwh, s. simpl. auto.
Qed.

(** The file [bills_2024], read and loaded. *)
Lemma load_succeeds_iff_witness :
  (exists df, fst (Plain.load bills_2024) = Some df) <->
  ~ (400 <= 200 < 600)%Z /\
  ~ missing_column raw_2024 /\
  ~ unreadable_date Plain.parse_datetime raw_2024 /\
  ~ text_reading raw_2024.
Proof.
  apply (@load_succeeds_iff
           Plain.read_csv Plain.parse_datetime C_locale
           {| status_code := 200; text := Plain.unlines bills_2024 |}
           raw_2024).
  vm_compute. reflexivity.
Defined.

(** ** The unit cost of a row *)

Lemma fdiv_nonzero (t k : Qc) :
  k <> 0%Qc -> fdiv (Fin t) (Fin k) = Fin (t / k)%Qc.
Proof.
  intro H. simpl. destruct (k ?= 0)%Qc eqn:E; try reflexivity.
  now apply Qceq_alt in E.
Qed.

Lemma fdiv_isnan (a b : f64) :
  isnan (fdiv a b) = true <->
  isnan a = true \/ isnan b = true \/
  (a = zero /\ b = zero) \/ (isinf a = true /\ isinf b = true).
Proof.
  destruct a as [x| | |], b as [y| | |]; simpl;
    try (split; [intro H; discriminate H
                |intros [H|[H|[[H1 H2]|[H1 H2]]]]; discriminate]);
    try (split; auto; fail).
  - destruct (y ?= 0)%Qc eqn:Ey.
    + apply Qceq_alt in Ey. subst y.
      destruct (x ?= 0)%Qc eqn:Ex.
      * apply Qceq_alt in Ex. subst x. split; auto.
      * split; [discriminate|].
        intros [H|[H|[[H1 H2]|[H1 H2]]]]; try discriminate.
        injection H1 as ->. discriminate Ex.
      * split; [discriminate|].
        intros [H|[H|[[H1 H2]|[H1 H2]]]]; try discriminate.
        injection H1 as ->. discriminate Ex.
    + split; [discriminate|].
      intros [H|[H|[[H1 H2]|[H1 H2]]]]; try discriminate.
      injection H2 as ->. discriminate Ey.
    + split; [discriminate|].
      intros [H|[H|[[H1 H2]|[H1 H2]]]]; try discriminate.
      injection H2 as ->. discriminate Ey.
  - destruct (y ?= 0)%Qc;
      (split; [discriminate
              |intros [H|[H|[[H1 H2]|[H1 H2]]]]; discriminate]).
  - destruct (y ?= 0)%Qc;
      (split; [discriminate
              |intros [H|[H|[[H1 H2]|[H1 H2]]]]; discriminate]).
Qed.

(** X3: a reading is not checked for its sign: a row with a negative
    [kWh] loads like any other, and for every finite [kWh] other than 0,
    negative ones included, [Unit_Cost] is [Total / kWh]. *)
Theorem unit_cost_of_nonzero_reading
        (read_csv : string -> result RawFrame)
        (parse_datetime : cell -> option Timestamp)
        (lc_time : month -> string)
        (get : result Response) (df : DataFrame) (r : Row) (t k : Qc) :
  fst (load_fpl_data read_csv parse_datetime lc_time get) = Some df ->
  In r df ->
  Total r = Fin t -> kWh r = Fin k -> k <> 0%Qc ->
  Unit_Cost r = Fin (t / k)%Qc.
Proof.
  intros Hl Hr Ht Hk Hne.
  destruct (@load_derived _ _ _ _ _ _ Hl Hr) as (Hu & _).
  rewrite Hu, Ht, Hk. now apply fdiv_nonzero.
Qed.

(** The bill [2024-04-15,-100,15.00]. *)
Lemma unit_cost_of_nonzero_reading_witness :
  Unit_Cost april_2024 = Fin (Q2Qc (1500 # 100) / Q2Qc (-100 # 1))%Qc.
Proof.
  apply (@unit_cost_of_nonzero_reading
           Plain.read_csv Plain.parse_datetime C_locale
           (Plain.get bill_with_negative_reading) [april_2024] april_2024
           (Q2Qc (1500 # 100)) (Q2Qc (-100 # 1))).
  - vm_compute. reflexivity.
  - left. reflexivity.
  - reflexivity.
  - reflexivity.
  - intro H.
    assert (E : (Q2Qc (-100 # 1) ?= 0)%Qc = Eq) by (apply Qceq_alt; exact H).
    vm_compute in E. discriminate E.
Defined.

(** X4: the unit cost of a loaded row is NaN, and so left out of every
    mean, exactly when [Total] or [kWh] is missing, when both are 0, or
    when both are infinite; a bill of 0 kWh with a charge is not among
    these. *)
Theorem unit_cost_isnan_iff
        (read_csv : string -> result RawFrame)
        (parse_datetime : cell -> option Timestamp)
        (lc_time : month -> string)
        (get : result Response) (df : DataFrame) (r : Row) :
  fst (load_fpl_data read_csv parse_datetime lc_time get) = Some df ->
  In r df ->
  (isnan (Unit_Cost r) = true <->
   isnan (Total r) = true \/ isnan (kWh r) = true \/
   (Total r = zero /\ kWh r = zero) \/
   (isinf (Total r) = true /\ isinf (kWh r) = true)).
Proof.
  intros Hl Hr.
  destruct (@load_derived _ _ _ _ _ _ Hl Hr) as (Hu & _).
  rewrite Hu. apply fdiv_isnan.
Qed.

(** The January bill of [bills_2024]. *)
Lemma unit_cost_isnan_iff_witness :
  isnan (Unit_Cost january_2024) = true <->
  isnan (Total january_2024) = true \/ isnan (kWh january_2024) = true \/
  (Total january_2024 = zero /\ kWh january_2024 = zero) \/
  (isinf (Total january_2024) = true /\ isinf (kWh january_2024) = true).
Proof.
  apply (@unit_cost_isnan_iff
           Plain.read_csv Plain.parse_datetime C_locale
           (Plain.get bills_2024) frame_2024 january_2024).
  - vm_compute. reflexivity.
  - left. reflexivity.
Defined.

(** ** Rows without a date, and how the years divide the rows *)

Lemma year_df_In (df : DataFrame) (selected_year : option Z) (r : Row) :
  In r (year_df df selected_year) <->
  In r df /\ year_eq (Year r) selected_year = true.
Proof.
  transitivity
    (In r (filter (fun r => year_eq (Year r) selected_year) df)).
  - split; apply Permutation_in;
      [apply Permutation_sym|]; apply year_df_perm.
  - apply filter_In.
Qed.

(** X5: a row whose date is missing is shown under no year, whichever is
    selected, and is in the group of no row of the annual summary: the
    file loads, and the bill is left out of every figure without a
    message. *)
Theorem undated_row_is_in_no_year
        (read_csv : string -> result RawFrame)
        (parse_datetime : cell -> option Timestamp)
        (lc_time : month -> string)
        (get : result Response) (df : DataFrame) (r : Row) :
  fst (load_fpl_data read_csv parse_datetime lc_time get) = Some df ->
  In r df -> Date r = None ->
  (forall selected_year, ~ In r (year_df df selected_year)) /\
  (forall y, ~ In r (group df y)).
Proof.
  intros Hl Hr Hd.
  destruct (@load_derived _ _ _ _ _ _ Hl Hr) as (_ & Hy & _).
  rewrite Hd in Hy. simpl in Hy. split.
  - intros sel H. apply year_df_In in H as [_ H].
    rewrite Hy in H. discriminate H.
  - intros y H. apply filter_In in H as [_ H].
    rewrite Hy in H. discriminate H.
Qed.

(** The second row of [bills_with_undated_row]. *)
Lemma undated_row_is_in_no_year_witness :
  (forall selected_year,
      ~ In undated_bill (year_df frame_with_undated_row selected_year)) /\
  (forall y, ~ In undated_bill (group frame_with_undated_row y)).
Proof.
  apply (@undated_row_is_in_no_year
           Plain.read_csv Plain.parse_datetime C_locale
           (Plain.get bills_with_undated_row)
           frame_with_undated_row undated_bill).
  - vm_compute. reflexivity.
  - right. left. reflexivity.
  - reflexivity.
Defined.

Lemma group_cons (r : Row) (df : DataFrame) (k : Z) :
  group (r :: df) k =
  if year_eq (Year r) (Some k) then r :: group df k else group df k.
Proof. reflexivity. Qed.

Lemma year_among_not_in (ks : list Z) (r : Row) (k : Z) :
  Year r = Some k -> ~ In k ks -> year_among ks r = false.
Proof.
  intros Hy Hn. unfold year_among. rewrite Hy.
  destruct (existsb (Z.eqb k) ks) eqn:E; [|reflexivity].
  apply existsb_exists in E as (x & Hx & E). apply Z.eqb_eq in E.
  subst x. contradiction.
Qed.

Lemma groups_of_cons (r : Row) (df : DataFrame) (ks : list Z) :
  NoDup ks ->
  Permutation (concat (map (group (r :: df)) ks))
              (if year_among ks r
               then r :: concat (map (group df) ks)
               else concat (map (group df) ks)).
Proof.
  induction 1 as [|k ks Hk Hn IH].
  { unfold year_among. destruct (Year r); simpl; constructor. }
  cbn [map concat]. rewrite group_cons.
  destruct (year_eq (Year r) (Some k)) eqn:E.
  - apply year_eq_Some in E.
    rewrite (@year_among_not_in ks r k E Hk) in IH.
    assert (Ha : year_among (k :: ks) r = true).
    { unfold year_among. rewrite E. simpl. now rewrite Z.eqb_refl. }
    rewrite Ha. simpl. apply perm_skip. now apply Permutation_app_head.
  - assert (Ha : year_among (k :: ks) r = year_among ks r).
    { unfold year_among. destruct (Year r) as [y|]; [|reflexivity].
      simpl in *. now rewrite E. }
    rewrite Ha. destruct (year_among ks r).
    + eapply perm_trans; [apply Permutation_app_head; exact IH|].
      apply Permutation_sym, Permutation_middle.
    + now apply Permutation_app_head.
Qed.

Lemma groups_partition (df : DataFrame) (ks : list Z) :
  NoDup ks ->
  Permutation (concat (map (group df) ks)) (filter (year_among ks) df).
Proof.
  intro Hn. induction df as [|r df IH].
  - simpl. induction ks; simpl; [constructor|].
    apply IHks. now inversion Hn.
  - eapply perm_trans; [now apply groups_of_cons|].
    simpl. destruct (year_among ks r); [now apply perm_skip | exact IH].
Qed.

Lemma ascending_NoDup (l : list Z) : StronglySorted Z.lt l -> NoDup l.
Proof.
  induction 1 as [|a l Hs IH Ha]; constructor; [|assumption].
  intro H. rewrite Forall_forall in Ha. specialize (Ha a H). lia.
Qed.

Lemma group_keys_partition (df : DataFrame) :
  Permutation (concat (map (group df) (group_keys df))) (filter has_year df).
Proof.
  eapply perm_trans.
  - apply groups_partition, ascending_NoDup, group_keys_ascending.
  - replace (filter (year_among (group_keys df)) df)
      with (filter has_year df); [apply Permutation_refl|].
    apply filter_ext_in. intros r Hr. unfold has_year, year_among.
    destruct (Year r) as [y|] eqn:E; [|reflexivity].
    symmetry. apply existsb_exists. exists y.
    split; [|apply Z.eqb_refl].
    apply group_keys_In. eauto.
Qed.

Lemma fsum_app (l1 l2 : list f64) :
  fsum (l1 ++ l2) = fadd (fsum l1) (fsum l2).
Proof.
  induction l1 as [|x l1 IH]; simpl.
  - symmetry. apply fadd_zero_l.
  - unfold fsum in *. simpl. rewrite IH. apply fadd_assoc.
Qed.

Lemma nansum_app (l1 l2 : list f64) :
  nansum (l1 ++ l2) = fadd (nansum l1) (nansum l2).
Proof. rewrite !nansum_fsum, map_app. apply fsum_app. Qed.

Lemma fsum_of_groups (f : Row -> f64) (g : Z -> DataFrame) (ks : list Z) :
  fsum (map (fun y => nansum (map f (g y))) ks)
  = nansum (map f (concat (map g ks))).
Proof.
  induction ks as [|k ks IH]; [reflexivity|].
  cbn [map concat]. rewrite map_app, nansum_app, <- IH. reflexivity.
Qed.

Lemma Series_sum_float64 (A : Type) (tag : A -> dtype) (f : A -> f64)
      (l : list A) :
  Forall (fun r => tag r = float64) l ->
  Series_sum (column_dtype (map tag l)) (map f l) = nansum (map f l).
Proof.
  destruct l as [|r l]; [reflexivity|].
  intro H. apply Forall_inv in H.
  unfold column_dtype. simpl. rewrite H. reflexivity.
Qed.

Lemma Series_sum_int64 (A : Type) (tag : A -> dtype) (f : A -> f64)
      (l : list A) :
  Forall (fun r => tag r = int64) l ->
  Series_sum (column_dtype (map tag l)) (map f l) = sum_int64 (map f l).
Proof. intro H. now rewrite (column_dtype_int64 tag H). Qed.

Lemma group_dated (P : Row -> Prop) (df : DataFrame) (y : Z) :
  Forall P (filter has_year df) -> Forall P (group df y).
Proof.
  rewrite !Forall_forall. intros H r Hr. apply H.
  apply filter_In in Hr as [Hr Hy]. apply filter_In. split; [exact Hr|].
  apply year_eq_Some in Hy. unfold has_year. now rewrite Hy.
Qed.

Lemma wrap_int64_Zsum (zs : list Z) :
  wrap_int64 (Zsum (map wrap_int64 zs)) = wrap_int64 (Zsum zs).
Proof.
  induction zs as [|z zs IH]; [reflexivity|].
  cbn [map Zsum fold_right]. fold (Zsum (map wrap_int64 zs)). fold (Zsum zs).
  rewrite wrap_int64_add.
  rewrite (Z.add_comm z (Zsum (map wrap_int64 zs))).
  rewrite <- wrap_int64_add, IH, wrap_int64_add.
  f_equal. lia.
Qed.

Lemma sum_int64_of_groups (f : Row -> f64) (g : Z -> DataFrame)
      (ks : list Z) :
  sum_int64 (map (fun y => sum_int64 (map f (g y))) ks)
  = sum_int64 (map f (concat (map g ks))).
Proof.
  rewrite !sum_int64_wrap. f_equal.
  rewrite map_map.
  rewrite (map_ext _ (fun y => wrap_int64 (Zsum (map int_value (map f (g y))))))
    by (intro y; rewrite sum_int64_wrap; apply int_value_of_Z).
  rewrite <- (map_map (fun y => Zsum (map int_value (map f (g y)))) wrap_int64).
  rewrite wrap_int64_Zsum. f_equal.
  induction ks as [|k ks IH]; [reflexivity|].
  cbn [map concat]. rewrite !map_app, Zsum_app, <- IH. reflexivity.
Qed.

(** X6: the years of the annual summary divide the rows that have a date:
    every such row is in the group of exactly one year.  So the bills
    counted over the years are the dated rows of the file, and the annual
    totals of [kWh] and of [Total] add up to the totals over the dated
    rows: in exact arithmetic for a float64 column, and in int64
    arithmetic, with its wrap-around, for an int64 column. *)
Theorem annual_summary_divides_dated_rows (df : DataFrame) :
  let dated := filter has_year df in
  Permutation (concat (map (group df) (map s_Year (annual_summary df))))
              dated /\
  list_sum (map (fun s => num_bills (year_df df (Some (s_Year s))))
                (annual_summary df)) = length dated /\
  (Forall (fun r => kWh_dtype r = float64) dated ->
   fsum (map s_kWh (annual_summary df)) = nansum (map kWh dated)) /\
  (Forall (fun r => Total_dtype r = float64) dated ->
   fsum (map s_Total (annual_summary df)) = nansum (map Total dated)) /\
  (Forall (fun r => kWh_dtype r = int64) dated ->
   sum_int64 (map s_kWh (annual_summary df)) = sum_int64 (map kWh dated)) /\
  (Forall (fun r => Total_dtype r = int64) dated ->
   sum_int64 (map s_Total (annual_summary df))
   = sum_int64 (map Total dated)).
Proof.
  cbv zeta. rewrite annual_summary_years.
  pose proof (group_keys_partition df) as Hp.
  split; [exact Hp|]. split; [|split; [|split; [|split]]].
  - rewrite <- (Permutation_length Hp), length_concat, map_map.
    unfold annual_summary. rewrite map_map. simpl. f_equal.
    apply map_ext. intro y. apply num_bills_year_df.
  - intro Hd. unfold annual_summary. rewrite map_map. simpl.
    rewrite (map_ext _ (fun y => nansum (map kWh (group df y))))
      by (intro y; apply Series_sum_float64, group_dated, Hd).
    rewrite (fsum_of_groups kWh (group df)).
    apply nansum_perm, Permutation_map, Hp.
  - intro Hd. unfold annual_summary. rewrite map_map. simpl.
    rewrite (map_ext _ (fun y => nansum (map Total (group df y))))
      by (intro y; apply Series_sum_float64, group_dated, Hd).
    rewrite (fsum_of_groups Total (group df)).
    apply nansum_perm, Permutation_map, Hp.
  - intro Hd. unfold annual_summary. rewrite map_map. simpl.
    rewrite (map_ext _ (fun y => sum_int64 (map kWh (group df y))))
      by (intro y; apply Series_sum_int64, group_dated, Hd).
    rewrite (sum_int64_of_groups kWh (group df)).
    apply sum_int64_perm, Permutation_map, Hp.
  - intro Hd. unfold annual_summary. rewrite map_map. simpl.
    rewrite (map_ext _ (fun y => sum_int64 (map Total (group df y))))
      by (intro y; apply Series_sum_int64, group_dated, Hd).
    rewrite (sum_int64_of_groups Total (group df)).
    apply sum_int64_perm, Permutation_map, Hp.
Qed.

(** ** The years on offer and the year selected *)

(** X13: where every row of a loaded frame has a date, [available_years]
    holds every year of the frame, each once, ascending. *)
Theorem available_years_complete
        (read_csv : string -> result RawFrame)
        (parse_datetime : cell -> option Timestamp)
        (lc_time : month -> string)
        (get : result Response) (df : DataFrame) :
  fst (load_fpl_data read_csv parse_datetime lc_time get) = Some df ->
  (forall r, In r df -> Date r <> None) ->
  exists ys,
    available_years df = map Some ys /\
    StronglySorted Z.lt ys /\
    (forall y, In y ys <-> exists r, In r df /\ Year r = Some y).
Proof.
  intros Hl Hd. apply available_years_dated. intros r Hr.
  destruct (@load_derived _ _ _ _ _ _ Hl Hr) as (_ & Hy & _).
  rewrite Hy. specialize (Hd r Hr). now destruct (Date r).
Qed.

(** The two bills of [bills_2024]. *)
Lemma available_years_complete_witness :
  exists ys,
    available_years frame_2024 = map Some ys /\
    StronglySorted Z.lt ys /\
    (forall y, In y ys <-> exists r, In r frame_2024 /\ Year r = Some y).
Proof.
  apply (@available_years_complete
           Plain.read_csv Plain.parse_datetime C_locale
           (Plain.get bills_2024) frame_2024).
  - vm_compute. reflexivity.
  - simpl. intros r [<-|[<-|[]]]; discriminate.
Defined.

Lemma available_years_perm (df : DataFrame) :
  Permutation (unique (map Year df)) (available_years df).
Proof. apply PySortFacts.sorted_perm. Qed.

Lemma available_years_In (df : DataFrame) (y : option Z) :
  In y (available_years df) <-> exists r, In r df /\ Year r = y.
Proof.
  transitivity (In y (unique (map Year df))).
  - split; apply Permutation_in;
      [apply Permutation_sym|]; apply available_years_perm.
  - rewrite unique_In. apply year_present.
Qed.

Lemma available_years_NoDup (df : DataFrame) : NoDup (available_years df).
Proof.
  eapply Permutation_NoDup; [apply available_years_perm | apply unique_NoDup].
Qed.

(** X7: whatever the frame, [available_years] holds every value of the
    [Year] column exactly once, NaN (the year of an undated row) included
    and once; no year is lost or offered twice, also when the order
    fails. *)
Theorem available_years_each_once (df : DataFrame) :
  NoDup (available_years df) /\
  (forall y, In y (available_years df) <-> exists r, In r df /\ Year r = y) /\
  (length (available_years df) <= length df)%nat.
Proof.
  split; [apply available_years_NoDup|]. split.
  - intro y. apply available_years_In.
  - rewrite <- (length_map Year df).
    apply NoDup_incl_length; [apply available_years_NoDup|].
    intros y Hy. apply available_years_In in Hy as (r & Hr & <-).
    now apply in_map.
Qed.

Lemma default_of_ascending (ys : list Z) :
  ys <> [] -> StronglySorted Z.lt ys ->
  exists y,
    default_selected_year (map Some ys) = Some y /\ In y ys /\
    forall y', In y' ys -> (y' <= y)%Z.
Proof.
  intros Hne Hs. destruct (exists_last Hne) as (front & y & ->).
  exists y. split; [|split].
  - unfold default_selected_year.
    rewrite length_map, length_app. simpl.
    destruct (Z.leb_spec 0 (Z.of_nat (length front + 1) - 1)); [|lia].
    replace (Z.to_nat (Z.of_nat (length front + 1) - 1))
      with (length (map Some front) + 0)%nat
      by (rewrite length_map; lia).
    rewrite map_app, nth_error_app2 by lia.
    replace (length (map Some front) + 0 - length (map Some front))%nat
      with 0%nat by lia.
    reflexivity.
  - apply in_or_app. right. now left.
  - intros y' Hy'. apply StronglySorted_app_inv in Hs as (_ & _ & Hc).
    apply in_app_or in Hy' as [Hf|[<-|[]]]; [|lia].
    specialize (Hc y' y Hf (or_introl eq_refl)). lia.
Qed.

(** X8: when the frame has rows and every row has a year, the year the
    select box starts on is the most recent year of the frame (the
    comment of line 62), and that year has rows to show. *)
Theorem default_year_is_most_recent (df : DataFrame) :
  df <> [] ->
  (forall r, In r df -> Year r <> None) ->
  exists y,
    default_selected_year (available_years df) = Some y /\
    (exists r, In r df /\ Year r = Some y) /\
    (forall r y', In r df -> Year r = Some y' -> (y' <= y)%Z) /\
    year_df df (Some y) <> [].
Proof.
  intros Hne Hd.
  destruct (available_years_dated df Hd) as (ys & Ha & Hs & Hi).
  assert (Hys : ys <> []).
  { destruct df as [|r df]; [congruence|].
    destruct (Year r) as [y0|] eqn:E;
      [|exfalso; now apply (Hd r (or_introl eq_refl))].
    intros ->. apply (Hi y0). exists r. split; [now left | exact E]. }
  destruct (default_of_ascending Hys Hs) as (y & Hdef & Hin & Hmax).
  exists y. rewrite Ha. split; [exact Hdef|].
  destruct (proj1 (Hi y) Hin) as (r & Hr & Hy).
  split; [eauto|]. split.
  - intros r' y' Hr' Hy'. apply Hmax. apply Hi. eauto.
  - intro H. assert (Hin' : In r (year_df df (Some y))).
    { apply year_df_In. split; [exact Hr|]. now apply year_eq_Some. }
    rewrite H in Hin'. exact Hin'.
Qed.

(** The two bills of [bills_2024]. *)
Lemma default_year_is_most_recent_witness :
  exists y,
    default_selected_year (available_years frame_2024) = Some y /\
    (exists r, In r frame_2024 /\ Year r = Some y) /\
    (forall r y', In r frame_2024 -> Year r = Some y' -> (y' <= y)%Z) /\
    year_df frame_2024 (Some y) <> [].
Proof.
  apply (@default_year_is_most_recent frame_2024).
  - discriminate.
  - simpl. intros r [<-|[<-|[]]]; discriminate.
Defined.

Lemma ascending_unique (l1 : list Z) :
  forall l2,
    StronglySorted Z.lt l1 -> StronglySorted Z.lt l2 ->
    (forall x, In x l1 <-> In x l2) -> l1 = l2.
Proof.
  induction l1 as [|a l1 IH]; intros [|b l2] H1 H2 Hi.
  - reflexivity.
  - exfalso. apply (Hi b). now left.
  - exfalso. apply (Hi a). now left.
  - apply StronglySorted_inv in H1 as [H1 Ha].
    apply StronglySorted_inv in H2 as [H2 Hb].
    rewrite Forall_forall in Ha, Hb.
    assert (a = b).
    { destruct (proj1 (Hi a) (or_introl eq_refl)) as [E|Ea]; [auto|].
      destruct (proj2 (Hi b) (or_introl eq_refl)) as [E|Eb]; [auto|].
      specialize (Ha b Eb). specialize (Hb a Ea). lia. }
    subst b. f_equal. apply IH; try assumption.
    intro x. split; intro Hx.
    + destruct (proj1 (Hi x) (or_intror Hx)) as [E|E]; [|exact E].
      subst x. specialize (Ha a Hx). lia.
    + destruct (proj2 (Hi x) (or_intror Hx)) as [E|E]; [|exact E].
      subst x. specialize (Hb a Hx). lia.
Qed.

(** X9: when every row has a year, the annual summary has its rows for
    exactly the years the select box offers, in the same order. *)
Theorem annual_summary_years_are_available_years (df : DataFrame) :
  (forall r, In r df -> Year r <> None) ->
  map (fun s => Some (s_Year s)) (annual_summary df) = available_years df.
Proof.
  intro Hd.
  destruct (available_years_dated df Hd) as (ys & Ha & Hs & Hi).
  rewrite Ha, <- (map_map s_Year Some), annual_summary_years. f_equal.
  apply ascending_unique; [apply group_keys_ascending | exact Hs |].
  intro y. rewrite Hi. apply group_keys_In.
Qed.

(** A bill of December 2023 and one of January 2024. *)
Lemma annual_summary_years_are_available_years_witness :
  map (fun s => Some (s_Year s)) (annual_summary frame_2023_2024)
  = available_years frame_2023_2024.
Proof.
  apply (@annual_summary_years_are_available_years frame_2023_2024).
  simpl. intros r [<-|[<-|[]]]; discriminate.
Defined.

(** ** What the page shows *)

Lemma year_df_None (df : DataFrame) : year_df df None = [].
Proof.
  unfold year_df.
  replace (filter (fun r => year_eq (Year r) None) df) with (@nil Row);
    [reflexivity|].
  induction df as [|r df IH]; simpl; [reflexivity|].
  now destruct (Year r).
Qed.

Lemma offered_year_has_rows (df : DataFrame) (y : Z) :
  In (Some y) (available_years df) ->
  (0 < length (year_df df (Some y)))%nat.
Proof.
  intro H. apply available_years_In in H as (r & Hr & Hy).
  assert (Hin : In r (year_df df (Some y))).
  { apply year_df_In. split; [exact Hr|]. now apply year_eq_Some. }
  destruct (year_df df (Some y)); [destruct Hin | simpl; lia].
Qed.

Lemma two_entries (l : list (option Z)) :
  NoDup l ->
  ((1 < length l)%nat <-> exists a b, In a l /\ In b l /\ a <> b).
Proof.
  intro Hn. split.
  - destruct l as [|a [|b t]]; simpl; try lia. intros _.
    exists a, b. repeat split; auto.
    intros ->. inversion Hn as [|? ? Hnot _]. apply Hnot. now left.
  - intros (a & b & Ha & Hb & Hab).
    destruct l as [|x [|y t]]; simpl in *; try lia; try tauto.
    destruct Ha as [<-|[]], Hb as [<-|[]]. congruence.
Qed.

Lemma more_than_one_year (df : DataFrame) :
  (1 < length (available_years df))%nat <->
  exists r1 r2, In r1 df /\ In r2 df /\ Year r1 <> Year r2.
Proof.
  rewrite (two_entries (available_years_NoDup df)). split.
  - intros (a & b & Ha & Hb & Hab).
    apply available_years_In in Ha as (r1 & H1 & <-).
    apply available_years_In in Hb as (r2 & H2 & <-).
    eauto.
  - intros (r1 & r2 & H1 & H2 & Hne).
    exists (Year r1), (Year r2).
    repeat split; try exact Hne; apply available_years_In; eauto.
Qed.

(** X10: for a year the select box offers, the charts of that year are
    shown, and the year-over-year section with the annual summary is
    shown with them exactly when two rows of the frame differ in their
    [Year]; the NaN year of an undated row counts as one of the two. *)
Theorem year_over_year_needs_two_years (df : DataFrame) (y : Z) :
  In (Some y) (available_years df) ->
  page (Some df) (Some y)
  = Dashboard (year_df df (Some y)) (year_over_year df (Some y)) /\
  (year_over_year df (Some y) = Some (annual_summary df) <->
   exists r1 r2, In r1 df /\ In r2 df /\ Year r1 <> Year r2) /\
  (year_over_year df (Some y) = None <->
   forall r1 r2, In r1 df -> In r2 df -> Year r1 = Year r2).
Proof.
  intro H. pose proof (offered_year_has_rows _ _ H) as Hrows.
  apply Nat.ltb_lt in Hrows.
  unfold page, year_over_year. rewrite Hrows.
  split; [reflexivity|].
  destruct (Nat.ltb_spec 1 (length (available_years df))) as [Hlt|Hge].
  - pose proof (proj1 (more_than_one_year df) Hlt) as Htwo.
    split; [tauto|]. split; [discriminate|].
    intro Hall. destruct Htwo as (r1 & r2 & H1 & H2 & Hne).
    exfalso. apply Hne. now apply Hall.
  - assert (Hnot : ~ exists r1 r2, In r1 df /\ In r2 df /\ Year r1 <> Year r2)
      by (intro Htwo; apply more_than_one_year in Htwo; lia).
    split; [split; [discriminate | tauto]|].
    split; [|reflexivity]. intros _ r1 r2 H1 H2.
    destruct (Year r1) as [a|] eqn:E1, (Year r2) as [b|] eqn:E2;
      try reflexivity;
      try (exfalso; apply Hnot; exists r1, r2; rewrite E1, E2;
           repeat split; auto; discriminate).
    destruct (Z.eq_dec a b) as [->|Hab]; [reflexivity|].
    exfalso. apply Hnot. exists r1, r2. rewrite E1, E2.
    repeat split; auto. congruence.
Qed.

(** A bill of December 2023 and one of January 2024, with 2024 selected. *)
Lemma year_over_year_needs_two_years_witness :
  page (Some frame_2023_2024) (Some 2024%Z)
  = Dashboard (year_df frame_2023_2024 (Some 2024%Z))
              (year_over_year frame_2023_2024 (Some 2024%Z)) /\
  (year_over_year frame_2023_2024 (Some 2024%Z)
   = Some (annual_summary frame_2023_2024) <->
   exists r1 r2,
     In r1 frame_2023_2024 /\ In r2 frame_2023_2024 /\ Year r1 <> Year r2) /\
  (year_over_year frame_2023_2024 (Some 2024%Z) = None <->
   forall r1 r2,
     In r1 frame_2023_2024 -> In r2 frame_2023_2024 -> Year r1 = Year r2).
Proof.
  apply (@year_over_year_needs_two_years frame_2023_2024 2024%Z).
  vm_compute. right. left. reflexivity.
Defined.

(** X11: for an entry the select box offers, the warning "No data
    available" takes the place of the charts exactly when the entry is
    the NaN of an undated row; every year on offer has rows to show. *)
Theorem no_data_only_for_nan (df : DataFrame) (selected_year : option Z) :
  In selected_year (available_years df) ->
  (page (Some df) selected_year = NoData selected_year <->
   selected_year = None).
Proof.
  intro H. destruct selected_year as [y|].
  - pose proof (offered_year_has_rows _ _ H) as Hrows.
    apply Nat.ltb_lt in Hrows. unfold page. rewrite Hrows.
    split; discriminate.
  - unfold page. rewrite year_df_None. simpl. tauto.
Qed.

(** The file [bills_with_undated_row], with the NaN entry selected. *)
Lemma no_data_only_for_nan_witness :
  page (Some frame_with_undated_row) None = NoData None <->
  @None Z = None.
Proof.
  apply (@no_data_only_for_nan frame_with_undated_row None).
  vm_compute. right. left. reflexivity.
Defined.

(** ** The order of the months in the charts *)

Lemma StronglySorted_impl_In (A : Type) (R S : A -> A -> Prop) (l : list A) :
  (forall a b, In a l -> In b l -> R a b -> S a b) ->
  StronglySorted R l -> StronglySorted S l.
Proof.
  intros HRS Hs. induction Hs as [|a l Hs IH Ha]; constructor.
  - apply IH. intros x y Hx Hy. apply HRS; now right.
  - rewrite Forall_forall in *. intros x Hx.
    apply HRS; [now left | now right | now apply Ha].
Qed.

Lemma same_year_months (a b : Timestamp) :
  ts_year a = ts_year b -> ts_leb a b = true ->
  (month_number (ts_month a) <= month_number (ts_month b))%Z.
Proof.
  unfold ts_leb, ts_key. simpl. intros ->.
  rewrite Z.ltb_irrefl.
  destruct (Z.ltb_spec (month_number (ts_month a))
                       (month_number (ts_month b))); [lia|].
  destruct (Z.ltb_spec (month_number (ts_month b))
                       (month_number (ts_month a))); [discriminate | lia].
Qed.

Lemma C_locale_index (m : month) :
  index_of (C_locale m) categoryarray
  = Some (Z.to_nat (month_number m - 1)).
Proof. destruct m; reflexivity. Qed.

(** X12: the rows of a year reach the charts with their months in
    calendar order, and, in the C locale, with their month names in the
    order of the list the charts order the axis by; a year is never
    drawn out of order. *)
Theorem year_df_months_in_order
        (read_csv : string -> result RawFrame)
        (parse_datetime : cell -> option Timestamp)
        (lc_time : month -> string)
        (get : result Response) (df : DataFrame) (y : Z) :
  fst (load_fpl_data read_csv parse_datetime lc_time get) = Some df ->
  StronglySorted months_in_order (year_df df (Some y)) /\
  ((forall m, lc_time m = C_locale m) ->
   StronglySorted names_in_axis_order (year_df df (Some y))).
Proof.
  intro Hl.
  assert (Hrow : forall r, In r (year_df df (Some y)) ->
                           exists t, Date r = Some t /\ ts_year t = y /\
                                     Month r = Some (month_number (ts_month t)) /\
                                     Month_Name r = Some (lc_time (ts_month t))).
  { intros r Hr. apply year_df_In in Hr as [Hr Hy].
    apply year_eq_Some in Hy.
    destruct (@load_derived _ _ _ _ _ _ Hl Hr) as (_ & Hyr & Hm & Hn).
    rewrite Hyr in Hy. rewrite Hm, Hn.
    destruct (Date r) as [t|]; [|discriminate].
    simpl in Hy. injection Hy as Hy. exists t. auto. }
  split.
  - eapply StronglySorted_impl_In; [|apply sort_values_Date_sorted].
    intros a b Ha Hb Hab.
    destruct (Hrow a Ha) as (ta & Da & Ya & Ma & _).
    destruct (Hrow b Hb) as (tb & Db & Yb & Mb & _).
    unfold by_date in Hab. rewrite Da, Db in Hab. simpl in Hab.
    exists (month_number (ts_month ta)), (month_number (ts_month tb)).
    repeat split; try assumption.
    apply same_year_months; [congruence | exact Hab].
  - intro HC.
    eapply StronglySorted_impl_In; [|apply sort_values_Date_sorted].
    intros a b Ha Hb Hab.
    destruct (Hrow a Ha) as (ta & Da & Ya & _ & Na).
    destruct (Hrow b Hb) as (tb & Db & Yb & _ & Nb).
    unfold by_date in Hab. rewrite Da, Db in Hab. simpl in Hab.
    assert (Hle : (month_number (ts_month ta)
                   <= month_number (ts_month tb))%Z)
      by (apply same_year_months; [congruence | exact Hab]).
    rewrite HC in Na, Nb.
    exists (C_locale (ts_month ta)), (C_locale (ts_month tb)),
           (Z.to_nat (month_number (ts_month ta) - 1)),
           (Z.to_nat (month_number (ts_month tb) - 1)).
    repeat split; try assumption; try apply C_locale_index. lia.
Qed.

(** The two bills of [bills_2024] in the C locale. *)
Lemma year_df_months_in_order_witness :
  StronglySorted months_in_order (year_df frame_2024 (Some 2024%Z)) /\
  ((forall m, C_locale m = C_locale m) ->
   StronglySorted names_in_axis_order (year_df frame_2024 (Some 2024%Z))).
Proof.
  apply (@year_df_months_in_order
           Plain.read_csv Plain.parse_datetime C_locale
           (Plain.get bills_2024) frame_2024 2024%Z).
  vm_compute. reflexivity.
Defined.
